(** * RFM95W LoRa transmitter sketch: a shallow embedding of [rfm95w.ino]

    The sketch is a single-threaded Arduino program.  Its globals, the
    chip's register file, the output pins, the pending console input and
    the chronological list of everything the sketch asks the outside world
    to do are gathered in one record, [World]; every sketch function is a
    function on worlds in a small monad whose second outcome, [Hangs],
    stands for the effect-free infinite loop [while (1);].

    The RadioHead driver ([rf95.init], [rf95.send], ...) is not part of the
    sketch: the boolean a driver call answers is an argument of the function
    that asks for it, and what a driver call does to the chip's registers is
    a parameter of the whole development ([rf95_effect]). *)

From Stdlib Require Import ZArith List String Ascii Bool Lia.
Import ListNotations.
Local Open Scope Z_scope.

Set Implicit Arguments.

(** ** Machine integers *)

(** [uint8_t]: every assignment to a [uint8_t] variable keeps the low 8 bits. *)
Definition to_u8 (x : Z) : Z := x mod 256.

(** [unsigned long] is 32 bits wide on the boards the sketch targets. *)
Definition ULONG_MODULUS : Z := 2 ^ 32.
Definition to_ulong (x : Z) : Z := x mod ULONG_MODULUS.

(** ** Pins and constants of the sketch *)

Definition RFM95_CS : Z := 10.
Definition RFM95_RST : Z := 9.
Definition RFM95_IRQ : Z := 2.
Definition LED_PIN : Z := 5.
Definition SWITCH_PIN : Z := 7.

Definition HIGH : bool := true.
Definition LOW : bool := false.

Definition message : list Z :=
  [0xA7; 0xF1; 0xD9; 0x2A; 0x82; 0xC8; 0xD8; 0xFE].

(** Registers of the SX1276 the sketch touches itself. *)
Definition RegModemConfig1 : Z := 0x1D.
Definition RegModemConfig2 : Z := 0x1E.
Definition RegPreambleMsb : Z := 0x20.
Definition RegPreambleLsb : Z := 0x21.

(** The time unit of the specification: its section 4.3 fixes one
    time-unit at 1000 ms, the settle delay before a send. *)
Definition time_unit_ms : Z := 1000.

(** ** Events *)

(** Arguments of [Serial.print] / [Serial.println]. *)
Inductive Printable :=
| PStr (s : string)
| PInt (n : Z)
| PHex (n : Z).

(** Calls into the RadioHead driver. *)
Inductive DriverCall :=
| RfInit
| RfSetFrequency (mhz : Z)
| RfSetTxPower (dBm : Z) (useRFO : bool)
| RfSetModeIdle
| RfSend (payload : list Z)
| RfSleep.

(** Sleep periods of the LowPower library. *)
Inductive period_t :=
| SLEEP_15MS | SLEEP_30MS | SLEEP_60MS | SLEEP_120MS | SLEEP_250MS
| SLEEP_500MS | SLEEP_1S | SLEEP_2S | SLEEP_4S | SLEEP_8S | SLEEP_FOREVER.

Inductive adc_t := ADC_OFF | ADC_ON.
Inductive bod_t := BOD_OFF | BOD_ON.

Definition period_ms (p : period_t) : option Z :=
  match p with
  | SLEEP_15MS => Some 15 | SLEEP_30MS => Some 30 | SLEEP_60MS => Some 60
  | SLEEP_120MS => Some 120 | SLEEP_250MS => Some 250
  | SLEEP_500MS => Some 500 | SLEEP_1S => Some 1000 | SLEEP_2S => Some 2000
  | SLEEP_4S => Some 4000 | SLEEP_8S => Some 8000 | SLEEP_FOREVER => None
  end.

Inductive Event :=
| SerialBegin (baud : Z)
| SerialPrint (p : Printable)
| SerialPrintln (p : Printable)
| PinModeOutput (pin : Z)
| DigitalWrite (pin : Z) (level : bool)
| Delay (ms : Z)
| SpiRead (addr val : Z)
| SpiWrite (addr val : Z)
| Rf (c : DriverCall)
| PowerDown (p : period_t) (adc : adc_t) (bod : bod_t)
| ReadStringTimeout (ms : Z).  (* readStringUntil gave up after [ms] *)

(** ** The world *)

Record World := mkWorld {
  regs : Z -> Z;               (* register file of the radio chip *)
  pins : Z -> bool;            (* level of each digital output *)
  totalPacketCount : Z;        (* unsigned long totalPacketCount *)
  isPaused : bool;             (* bool isPaused *)
  serialIn : string;           (* bytes waiting in the Serial receive buffer *)
  trace : list Event           (* what happened so far, oldest first *)
}.

Definition upd (f : Z -> Z) (a v : Z) : Z -> Z :=
  fun x => if Z.eqb x a then v else f x.

Definition upd_pin (f : Z -> bool) (p : Z) (l : bool) : Z -> bool :=
  fun x => if Z.eqb x p then l else f x.

Definition set_regs (r : Z -> Z) (w : World) : World :=
  mkWorld r (pins w) (totalPacketCount w) (isPaused w) (serialIn w) (trace w).
Definition set_pins (p : Z -> bool) (w : World) : World :=
  mkWorld (regs w) p (totalPacketCount w) (isPaused w) (serialIn w) (trace w).
Definition set_totalPacketCount (n : Z) (w : World) : World :=
  mkWorld (regs w) (pins w) n (isPaused w) (serialIn w) (trace w).
Definition set_isPaused (b : bool) (w : World) : World :=
  mkWorld (regs w) (pins w) (totalPacketCount w) b (serialIn w) (trace w).
Definition set_serialIn (s : string) (w : World) : World :=
  mkWorld (regs w) (pins w) (totalPacketCount w) (isPaused w) s (trace w).
Definition log (e : Event) (w : World) : World :=
  mkWorld (regs w) (pins w) (totalPacketCount w) (isPaused w) (serialIn w)
          (trace w ++ [e]).

(** ** The monad of sketch functions *)

Inductive Outcome (A : Type) :=
| Returns (a : A) (w : World)
| Hangs (w : World).
Arguments Hangs {A} w.

Definition M (A : Type) : Type := World -> Outcome A.

Definition ret {A} (a : A) : M A := fun w => Returns a w.

Definition bind {A B} (m : M A) (k : A -> M B) : M B :=
  fun w => match m w with
           | Returns a w' => k a w'
           | Hangs w' => Hangs w'
           end.

Notation "x <- m ;; k" := (bind m (fun x => k))
  (at level 61, m at next level, right associativity).
Notation "m ;; k" := (bind m (fun _ => k))
  (at level 61, right associativity).

(** [while (1);] *)
Definition spin_forever {A} : M A := fun w => Hangs w.

Definition emit (e : Event) : M unit := fun w => Returns tt (log e w).
Definition modify (f : World -> World) : M unit := fun w => Returns tt (f w).
Definition gets {A} (f : World -> A) : M A := fun w => Returns (f w) w.

(** [for (i = lo; i < lo + n; i++) body(i)] *)
Fixpoint for_loop (n : nat) (i : Z) (body : Z -> M unit) : M unit :=
  match n with
  | O => ret tt
  | S n' => body i ;; for_loop n' (i + 1) body
  end.

(** What a world gained in its trace since an earlier one. *)
Definition since (w w' : World) : list Event :=
  skipn (List.length (trace w)) (trace w').

(** ** Arduino primitives *)

Definition Serial_begin (baud : Z) : M unit := emit (SerialBegin baud).
Definition Serial_print (p : Printable) : M unit := emit (SerialPrint p).
Definition Serial_println (p : Printable) : M unit := emit (SerialPrintln p).
Definition pinMode_OUTPUT (pin : Z) : M unit := emit (PinModeOutput pin).
Definition delay (ms : Z) : M unit := emit (Delay ms).

Definition digitalWrite (pin : Z) (level : bool) : M unit :=
  modify (fun w => set_pins (upd_pin (pins w) pin level) w) ;;
  emit (DigitalWrite pin level).

Definition LowPower_powerDown (p : period_t) (adc : adc_t) (bod : bod_t)
  : M unit := emit (PowerDown p adc bod).

(** [rf95.spiRead] and [rf95.spiWrite]: one bus transaction each. *)
Definition spiRead (addr : Z) : M Z :=
  v <- gets (fun w => to_u8 (regs w addr)) ;;
  emit (SpiRead addr v) ;;
  ret v.

Definition spiWrite (addr val : Z) : M unit :=
  modify (fun w => set_regs (upd (regs w) addr (to_u8 val)) w) ;;
  emit (SpiWrite addr (to_u8 val)).

(** ** Arduino [String] and [Serial] input

    An Arduino String keeps its length beside its characters, so a line may
    hold NUL bytes: the model is the list of the characters received.  Most
    of [String] goes by the length; [equalsIgnoreCase] walks the characters
    as a C string and stops at the first NUL. *)

Definition NUL : ascii := ascii_of_N 0.

Definition isspace (c : ascii) : bool :=
  let n := Z.of_N (N_of_ascii c) in
  (n =? 32) || ((9 <=? n) && (n <=? 13)).

Definition tolower (c : ascii) : ascii :=
  let n := N_of_ascii c in
  if ((65 <=? n) && (n <=? 90))%N then ascii_of_N (n + 32) else c.

Fixpoint lowercase (s : string) : string :=
  match s with
  | EmptyString => EmptyString
  | String c s' => String (tolower c) (lowercase s')
  end.

Fixpoint skip_spaces (s : string) : string :=
  match s with
  | EmptyString => EmptyString
  | String c s' => if isspace c then skip_spaces s' else s
  end.

Fixpoint rev_string (acc s : string) : string :=
  match s with
  | EmptyString => acc
  | String c s' => rev_string (String c acc) s'
  end.

(** [String::trim]: white space is removed at both ends only. *)
Definition trim (s : string) : string :=
  rev_string EmptyString
    (skip_spaces (rev_string EmptyString (skip_spaces s))).

(** The loop [while ( *p1 )] of [String::equalsIgnoreCase]: characters are
    compared lowered, pair by pair, until the first string shows a NUL (its
    end, or a NUL byte it holds), where the answer is yes. *)
Fixpoint equal_to_first_nul (a b : string) : bool :=
  match a with
  | EmptyString => true
  | String x a' =>
      if Ascii.eqb x NUL then true
      else
        match b with
        | EmptyString => false
        | String y b' =>
            Ascii.eqb (tolower x) (tolower y) && equal_to_first_nul a' b'
        end
  end.

(** [String::equalsIgnoreCase]: the lengths must agree, then the loop
    decides. *)
Definition equalsIgnoreCase (a b : string) : bool :=
  Nat.eqb (String.length a) (String.length b) && equal_to_first_nul a b.

Fixpoint contains_char (c : ascii) (s : string) : bool :=
  match s with
  | EmptyString => false
  | String x s' => Ascii.eqb x c || contains_char c s'
  end.

(** The characters before the first terminator and what follows it; without
    a terminator, everything and nothing. *)
Fixpoint split_until (t : ascii) (s : string) : string * string :=
  match s with
  | EmptyString => (EmptyString, EmptyString)
  | String c s' =>
      if Ascii.eqb c t then (EmptyString, s')
      else let (l, r) := split_until t s' in (String c l, r)
  end.

Definition newline : ascii := ascii_of_N 10.

(** [Stream]'s [_timeout] in milliseconds; the sketch never calls
    [setTimeout]. *)
Definition SERIAL_TIMEOUT : Z := 1000.

Definition Serial_available : M bool :=
  gets (fun w => negb (String.eqb (serialIn w) EmptyString)).

(** [Stream::readStringUntil]: characters are taken with [timedRead] up to
    the terminator, which is consumed and dropped.  The receive buffer holds
    all the input there is going to be, so when it holds no terminator the
    [timedRead] after its last character waits the whole time-out, and the
    read returns everything. *)
Definition Serial_readStringUntil (t : ascii) : M string :=
  fun w => let (l, r) := split_until t (serialIn w) in
           if contains_char t (serialIn w)
           then Returns l (set_serialIn r w)
           else Returns l (log (ReadStringTimeout SERIAL_TIMEOUT)
                             (set_serialIn r w)).

(** ** The sketch *)

Section Sketch.

(** What each driver call does to the chip's registers. *)
Variable rf95_effect : DriverCall -> (Z -> Z) -> (Z -> Z).

Definition rf95 (c : DriverCall) : M unit :=
  modify (fun w => set_regs (rf95_effect c (regs w)) w) ;;
  emit (Rf c).

(** Lines 213-216. *)
Definition initializeLED : M unit :=
  pinMode_OUTPUT LED_PIN ;;
  digitalWrite LED_PIN LOW.

(** Lines 219-223. *)
Definition blinkLED (duration : Z) : M unit :=
  digitalWrite LED_PIN HIGH ;;
  delay duration ;;
  digitalWrite LED_PIN LOW.

(** Lines 69-73. *)
Definition initializeSwitch : M unit :=
  pinMode_OUTPUT SWITCH_PIN ;;
  digitalWrite SWITCH_PIN LOW ;;
  Serial_println (PStr "Switch initialized.").

(** Lines 226-235. *)
Definition displayMessage (msg : list Z) (size : Z) : M unit :=
  Serial_print (PStr "Message to send: ") ;;
  for_loop (Z.to_nat size) 0 (fun i =>
    Serial_print (PStr "0x") ;;
    (if nth (Z.to_nat i) msg 0 <? 0x10
     then Serial_print (PStr "0") else ret tt) ;;
    Serial_print (PHex (nth (Z.to_nat i) msg 0)) ;;
    (if i <? size - 1 then Serial_print (PStr ", ") else ret tt)) ;;
  Serial_println (PStr "").

(** Lines 238-241. *)
Definition displayPacketCount : M unit :=
  Serial_print (PStr "Total packets sent: ") ;;
  n <- gets totalPacketCount ;;
  Serial_println (PInt n).

(** Lines 76-81. *)
Definition prepareTransmission : M unit :=
  Serial_println (PStr "Preparing for transmission...") ;;
  rf95 RfSetModeIdle ;;
  digitalWrite SWITCH_PIN HIGH ;;
  delay 1000.

(** Lines 84-94; [sendOk] is what [rf95.send] answers. *)
Definition sendMessage (sendOk : bool) : M unit :=
  displayMessage message (Z.of_nat (List.length message)) ;;
  rf95 (RfSend message) ;;
  if sendOk then
    Serial_println (PStr "Message sent.") ;;
    blinkLED 500 ;;
    modify (fun w => set_totalPacketCount (to_ulong (totalPacketCount w + 1)) w) ;;
    displayPacketCount
  else
    Serial_println (PStr "Message failed to send.").

(** Lines 97-107. *)
Definition waitForNextCycle : M unit :=
  Serial_println (PStr "Entering sleep mode...") ;;
  rf95 RfSleep ;;
  digitalWrite SWITCH_PIN LOW ;;
  digitalWrite LED_PIN LOW ;;
  for_loop 12 0 (fun _ => LowPower_powerDown SLEEP_250MS ADC_OFF BOD_OFF).

(** Lines 132-134, the CRC switch inside [initializeRF95Module]. *)
Definition enableCRC : M unit :=
  modemConfig2 <- spiRead RegModemConfig2 ;;
  let modemConfig2 := to_u8 (Z.lor modemConfig2 (Z.shiftl 1 2)) in
  spiWrite RegModemConfig2 modemConfig2.

(** Lines 110-138; [initOk] is what [rf95.init] answers. *)
Definition initializeRF95Module (initOk : bool) : M unit :=
  pinMode_OUTPUT RFM95_RST ;;
  digitalWrite RFM95_RST HIGH ;;
  digitalWrite RFM95_RST LOW ;;
  delay 10 ;;
  digitalWrite RFM95_RST HIGH ;;
  delay 10 ;;
  rf95 RfInit ;;
  (if negb initOk then
     Serial_println (PStr "RF95 initialization failed.") ;;
     spin_forever
   else ret tt) ;;
  rf95 (RfSetFrequency 868) ;;
  rf95 (RfSetTxPower 7 false) ;;
  spiWrite RegPreambleMsb 0x00 ;;
  spiWrite RegPreambleLsb 0x08 ;;
  enableCRC ;;
  Serial_println (PStr "RF95 initialized with custom settings.").

(** Lines 61-66. *)
Definition initializeSystem (initOk : bool) : M unit :=
  initializeRF95Module initOk ;;
  initializeLED ;;
  initializeSwitch ;;
  Serial_println (PStr "RF95 module and system initialized.").

Definition bwValues : list Z :=
  [0x00; 0x10; 0x20; 0x30; 0x40; 0x50; 0x60; 0x70; 0x80; 0x90].

(** Lines 188-198. *)
Definition setBandwidth (bwCode : Z) : M unit :=
  if (0 <=? bwCode) && (bwCode <? 10) then
    modemConfig1 <- spiRead RegModemConfig1 ;;
    let modemConfig1 := to_u8 (Z.land modemConfig1 0x0F) in
    let modemConfig1 :=
      to_u8 (Z.lor modemConfig1 (nth (Z.to_nat bwCode) bwValues 0)) in
    spiWrite RegModemConfig1 modemConfig1 ;;
    Serial_print (PStr "Bandwidth set to code: ") ;;
    Serial_println (PInt bwCode)
  else ret tt.

(** Lines 201-210. *)
Definition setSpreadingFactor (sf : Z) : M unit :=
  if (6 <=? sf) && (sf <=? 12) then
    modemConfig2 <- spiRead RegModemConfig2 ;;
    let modemConfig2 := to_u8 (Z.land modemConfig2 0x0F) in
    let modemConfig2 := to_u8 (Z.lor modemConfig2 (Z.shiftl sf 4)) in
    spiWrite RegModemConfig2 modemConfig2 ;;
    Serial_print (PStr "Spreading Factor set to: ") ;;
    Serial_println (PInt sf)
  else ret tt.

(** Lines 141-147; [bwCode] and [sf] are the numbers the two blocking
    console prompts hand back. *)
Definition configureParameters (bwCode sf : Z) : M unit :=
  setBandwidth bwCode ;;
  setSpreadingFactor sf.

(** Lines 42-48.  [while (!Serial);] waits for the port to come up and has
    no other effect; the model starts with the port up. *)
Definition setup (initOk : bool) (bwCode sf : Z) : M unit :=
  Serial_begin 9600 ;;
  initializeSystem initOk ;;
  configureParameters bwCode sf.

(** Lines 244-256. *)
Definition checkForStopOrGo : M unit :=
  available <- Serial_available ;;
  if available then
    input <- Serial_readStringUntil newline ;;
    let input := trim input in
    if equalsIgnoreCase input "STOP" then
      modify (set_isPaused true) ;;
      Serial_println (PStr "Process paused. Enter 'GO' to resume.")
    else if equalsIgnoreCase input "GO" then
      modify (set_isPaused false) ;;
      Serial_println (PStr "Process resumed.")
    else ret tt
  else ret tt.

(** Lines 50-58: one pass of [loop]. *)
Definition loop (sendOk : bool) : M unit :=
  checkForStopOrGo ;;
  paused <- gets isPaused ;;
  if negb paused then
    prepareTransmission ;;
    sendMessage sendOk ;;
    waitForNextCycle
  else ret tt.

End Sketch.

(** ** The console prompts

    [int] is 16 bits and [long] 32 bits on the AVR boards the sketch is
    written for ([LowPower.powerDown] exists on AVR only).  The receive
    buffer holds all the input there is going to be: nothing arrives while a
    function runs, so a read that times out is a read from an empty
    buffer.  How long [parseInt] waits before it gives up leaves no event in
    the trace. *)

Definition to_int (x : Z) : Z := (x + 2 ^ 15) mod 2 ^ 16 - 2 ^ 15.
Definition to_long (x : Z) : Z := (x + 2 ^ 31) mod 2 ^ 32 - 2 ^ 31.

Definition is_digit (c : ascii) : bool :=
  let n := N_of_ascii c in ((48 <=? n) && (n <=? 57))%N.

Definition is_minus (c : ascii) : bool := Ascii.eqb c "-"%char.

Definition digit_value (c : ascii) : Z := Z.of_N (N_of_ascii c) - 48.

(** [NO_IGNORE_CHAR], the character [Stream::parseInt] steps over inside a
    number when it is called without arguments. *)
Definition NO_IGNORE_CHAR : ascii := ascii_of_N 1.

(** [Stream::peekNextDigit] with [SKIP_ALL]: characters are read and dropped
    up to the first minus sign or digit, which stays in the buffer; an empty
    buffer is the time-out. *)
Fixpoint peekNextDigit (s : string) : string :=
  match s with
  | EmptyString => EmptyString
  | String c s' => if is_minus c || is_digit c then s else peekNextDigit s'
  end.

(** The [do ... while] of [Stream::parseInt] after its first character:
    digits are accumulated, [NO_IGNORE_CHAR] is stepped over, anything else
    ends the number and stays in the buffer.  The accumulator is a [long]. *)
Fixpoint read_digits (value : Z) (s : string) : Z * string :=
  match s with
  | EmptyString => (value, EmptyString)
  | String c s' =>
      if is_digit c then read_digits (to_long (value * 10 + digit_value c)) s'
      else if Ascii.eqb c NO_IGNORE_CHAR then read_digits value s'
      else (value, s)
  end.

(** [Stream::parseInt()]: zero on time-out, otherwise the number that starts
    at the first minus sign or digit. *)
Definition parseInt (s : string) : Z * string :=
  match peekNextDigit s with
  | EmptyString => (0, EmptyString)
  | String c s' =>
      let (value, rest) :=
        read_digits (if is_digit c then to_long (digit_value c) else 0) s' in
      (if is_minus c then to_long (- value) else value, rest)
  end.

Definition Serial_parseInt : M Z :=
  fun w => let (v, rest) := parseInt (serialIn w) in
           Returns v (set_serialIn rest w).

(** The [while (x < 0)] loop the two prompt functions share, lines 153-164
    and 172-183: they differ in the bounds and in the two texts only.  A pass
    with nothing in the receive buffer changes nothing, so the loop then goes
    round for ever.  Every other pass takes at least one character out of the
    buffer, so [fuel] passes are enough once [fuel] exceeds its length. *)
Fixpoint prompt_loop (lo hi : Z) (selected invalid : string) (fuel : nat)
  : M Z :=
  match fuel with
  | O => spin_forever
  | S fuel' =>
      available <- Serial_available ;;
      if available then
        parsed <- Serial_parseInt ;;
        let x := to_int parsed in
        if (lo <=? x) && (x <=? hi) then
          Serial_print (PStr selected) ;;
          Serial_println (PInt x) ;;
          ret x
        else
          Serial_println (PStr invalid) ;;
          prompt_loop lo hi selected invalid fuel'
      else spin_forever
  end.

Definition prompt (lo hi : Z) (selected invalid : string) : M Z :=
  fun w => prompt_loop lo hi selected invalid
             (S (String.length (serialIn w))) w.

(** Lines 150-166. *)
Definition getUserBandwidthInput : M Z :=
  Serial_println (PStr "Enter bandwidth code (0-9):") ;;
  prompt 0 9 "Selected bandwidth: "
    "Invalid bandwidth code. Please try again.".

(** Lines 169-185. *)
Definition getUserSpreadingFactorInput : M Z :=
  Serial_println (PStr "Enter spreading factor (6-12):") ;;
  prompt 6 12 "Selected Spreading Factor: "
    "Invalid Spreading Factor. Please try again.".

(** Lines 141-147 with the two prompts in place. *)
Definition configureParameters_prompted : M unit :=
  bwCode <- getUserBandwidthInput ;;
  setBandwidth bwCode ;;
  sf <- getUserSpreadingFactorInput ;;
  setSpreadingFactor sf.

(** Lines 42-48 with the two prompts in place. *)
Definition setup_prompted
  (rf95_effect : DriverCall -> (Z -> Z) -> (Z -> Z)) (initOk : bool) : M unit :=
  Serial_begin 9600 ;;
  initializeSystem rf95_effect initOk ;;
  configureParameters_prompted.

(** The Arduino core calls [loop] again and again: the passes for a list of
    answers of [rf95.send], one answer a pass. *)
Fixpoint passes (rf95_effect : DriverCall -> (Z -> Z) -> (Z -> Z))
  (answers : list bool) : M unit :=
  match answers with
  | [] => ret tt
  | sendOk :: answers' => loop rf95_effect sendOk ;; passes rf95_effect answers'
  end.

(** ** Reading outcomes and traces *)

Definition final {A} (o : Outcome A) : World :=
  match o with
  | Returns _ w => w
  | Hangs w => w
  end.

Definition returned {A} (o : Outcome A) : bool :=
  match o with
  | Returns _ _ => true
  | Hangs _ => false
  end.

(** The specification's result type for configuration calls.  A [void]
    function that comes back has nothing but success to report. *)
Inductive ConfigError := OutOfRange.
Inductive Result := Ok | Err (e : ConfigError).

Definition result_of (o : Outcome unit) : option Result :=
  match o with
  | Returns _ _ => Some Ok
  | Hangs _ => None
  end.

Definition low_nibble (v : Z) : Z := Z.land v 0x0F.
Definition high_nibble (v : Z) : Z := Z.land v 0xF0.

Definition is_serial_out (e : Event) : bool :=
  match e with
  | SerialPrint _ | SerialPrintln _ => true
  | _ => false
  end.

Definition spi_writes (t : list Event) : list (Z * Z) :=
  flat_map (fun e => match e with
                     | SpiWrite a v => [(a, v)]
                     | _ => []
                     end) t.

Definition send_attempts (t : list Event) : nat :=
  List.length (filter (fun e => match e with
                                | Rf (RfSend _) => true
                                | _ => false
                                end) t).

Definition power_down_steps (t : list Event) : list period_t :=
  flat_map (fun e => match e with
                     | PowerDown p _ _ => [p]
                     | _ => []
                     end) t.

Definition slept_ms (t : list Event) : Z :=
  fold_right (fun p acc => match period_ms p with
                           | Some d => d + acc
                           | None => acc
                           end) 0 (power_down_steps t).

Definition writes_to (pin : Z) (t : list Event) : list bool :=
  flat_map (fun e => match e with
                     | DigitalWrite p l => if p =? pin then [l] else []
                     | _ => []
                     end) t.

(** The reset pulse seen by the chip when [rf95.init] is called: how long
    the reset line was last held low, and how long it has been high again
    since, both in milliseconds.  [None] when [rf95.init] is never called or
    is called with the line low. *)
Fixpoint reset_pulse (rst : bool) (low_ms high_ms : Z) (t : list Event)
  : option (Z * Z) :=
  match t with
  | [] => None
  | Rf RfInit :: _ => if rst then Some (low_ms, high_ms) else None
  | DigitalWrite p l :: t' =>
      if p =? RFM95_RST then
        if l then reset_pulse true low_ms 0 t'
        else reset_pulse false 0 0 t'
      else reset_pulse rst low_ms high_ms t'
  | Delay d :: t' =>
      if rst then reset_pulse rst low_ms (high_ms + d) t'
      else reset_pulse rst (low_ms + d) high_ms t'
  | _ :: t' => reset_pulse rst low_ms high_ms t'
  end.

(** No white space in front. *)
Definition starts_solid (s : string) : bool :=
  match s with
  | EmptyString => true
  | String c _ => negb (isspace c)
  end.

(** White space only. *)
Fixpoint all_space (s : string) : bool :=
  match s with
  | EmptyString => true
  | String c s' => isspace c && all_space s'
  end.

(** A line that is a command word: [name], given in small letters, written
    in any case, with any white space before and after it. *)
Definition is_command (name line : string) : Prop :=
  exists before word after,
    all_space before = true /\
    all_space after = true /\
    line = (before ++ word ++ after)%string /\
    lowercase word = name.

(** The command the next [checkForStopOrGo] will look at, if any. *)
Definition pending_command (w : World) : option string :=
  if String.eqb (serialIn w) EmptyString then None
  else Some (trim (fst (split_until newline (serialIn w)))).

Definition nl : string := String newline EmptyString.

(** The bytes the console was asked to show in hexadecimal, in order. *)
Definition hex_printed (t : list Event) : list Z :=
  flat_map (fun e => match e with
                     | SerialPrint (PHex b) => [b]
                     | _ => []
                     end) t.

(** How often a given text was printed with [Serial.print]. *)
Definition printed (text : string) (t : list Event) : nat :=
  List.length (filter (fun e => match e with
                                | SerialPrint (PStr s) => String.eqb s text
                                | _ => false
                                end) t).

(** How often a given line was printed with [Serial.println]. *)
Definition printed_lines (text : string) (t : list Event) : nat :=
  List.length (filter (fun e => match e with
                                | SerialPrintln (PStr s) => String.eqb s text
                                | _ => false
                                end) t).

(** Time spent waiting for the end of a line in [readStringUntil], in
    milliseconds. *)
Definition line_wait_ms (t : list Event) : Z :=
  fold_right (fun e acc => match e with
                           | ReadStringTimeout d => d + acc
                           | _ => acc
                           end) 0 t.

(** Time spent in [delay], in milliseconds. *)
Definition delayed_ms (t : list Event) : Z :=
  fold_right (fun e acc => match e with
                           | Delay d => d + acc
                           | _ => acc
                           end) 0 t.

(** The value of a run of decimal digits, most significant first. *)
Definition decimal_value (ds : list Z) : Z :=
  fold_left (fun v d => v * 10 + d) ds 0.

Definition digit_char (d : Z) : ascii := ascii_of_N (Z.to_N (d + 48)).

Fixpoint digit_string (ds : list Z) : string :=
  match ds with
  | [] => EmptyString
  | d :: ds' => String (digit_char d) (digit_string ds')
  end.

Fixpoint no_number_start (s : string) : bool :=
  match s with
  | EmptyString => true
  | String c s' => negb (is_minus c || is_digit c) && no_number_start s'
  end.

(** Everything but the console is as it was. *)
Definition same_device (w w' : World) : Prop :=
  regs w' = regs w /\
  pins w' = pins w /\
  totalPacketCount w' = totalPacketCount w /\
  isPaused w' = isPaused w.

(** What [displayMessage] prints for one byte: the prefix, a padding zero
    below 0x10, the byte in hexadecimal, and a separator unless the byte is
    the last. *)
Definition byte_display (last : bool) (b : Z) : list Event :=
  SerialPrint (PStr "0x") ::
  (if b <? 0x10 then [SerialPrint (PStr "0")] else []) ++
  SerialPrint (PHex b) ::
  (if last then [] else [SerialPrint (PStr ", ")]).

Fixpoint bytes_display (msg : list Z) : list Event :=
  match msg with
  | [] => []
  | b :: rest =>
      byte_display (match rest with [] => true | _ :: _ => false end) b
      ++ bytes_display rest
  end.

(** What [checkForStopOrGo] can print: nothing or one of its two lines. *)
Definition command_reply (l : list Event) : Prop :=
  l = [] \/
  l = [SerialPrintln (PStr "Process paused. Enter 'GO' to resume.")] \/
  l = [SerialPrintln (PStr "Process resumed.")].

(** The wait of [checkForStopOrGo] for the end of its line: none when the
    buffer is empty (nothing is read) or holds a newline, the time-out
    otherwise. *)
Definition line_wait (buffer : string) : list Event :=
  if String.eqb buffer EmptyString || contains_char newline buffer then []
  else [ReadStringTimeout SERIAL_TIMEOUT].

(** The events of one [checkForStopOrGo]: the wait, then the reply. *)
Definition command_events (buffer : string) (l : list Event) : Prop :=
  exists reply, command_reply reply /\ l = line_wait buffer ++ reply.

(** Events of the Serial port: output and waits for input. *)
Definition is_console (e : Event) : bool :=
  match e with
  | SerialPrint _ | SerialPrintln _ | ReadStringTimeout _ => true
  | _ => false
  end.

(** What every pass of [loop] leaves behind: load switch and LED off. *)
Definition outputs_off (w : World) : Prop :=
  pins w SWITCH_PIN = LOW /\ pins w LED_PIN = LOW.

(** ** Worlds used as concrete inputs *)

Definition no_effect : DriverCall -> (Z -> Z) -> (Z -> Z) := fun _ r => r.

Definition power_on : World :=
  mkWorld (fun _ => 0) (fun _ => false) 0 false EmptyString [].

Definition all_ones : World := set_regs (fun _ => 0xFF) power_on.

Definition counter_at_max : World :=
  set_totalPacketCount (ULONG_MODULUS - 1) power_on.

Definition crc_already_on : World := set_regs (fun _ => 0x04) power_on.


(** Two lines with NUL bytes: NUL NUL, and S NUL NUL NUL. *)
Definition nul_line : string := String NUL (String NUL EmptyString).
Definition s_nul_line : string :=
  String "S" (String NUL (String NUL (String NUL EmptyString))).

Definition paused_with_nul_line : World :=
  set_serialIn (nul_line ++ nl) (set_isPaused true power_on).

Definition running_with_s_nul_line : World :=
  set_serialIn (s_nul_line ++ nl) power_on.

Definition running_with_padded_stop : World :=
  set_serialIn ("  sToP " ++ nl) power_on.

Definition paused_with_inner_space : World :=
  set_serialIn (" ST OP " ++ nl) (set_isPaused true power_on).

Definition paused_with_stop : World :=
  set_serialIn ("stop" ++ nl) (set_isPaused true power_on).

Definition three_commands : World :=
  set_serialIn ("STOP" ++ nl ++ "GO" ++ nl ++ "STOP" ++ nl) power_on.

Definition typed_5_then_12 : World :=
  set_serialIn ("5" ++ nl ++ "12" ++ nl) power_on.

Definition typed_12_then_5 : World :=
  set_serialIn ("12" ++ nl ++ "5" ++ nl) power_on.

Definition typed_no_digits : World :=
  set_serialIn ("abc" ++ nl) power_on.

(** What [displayMessage] prints for the fixed payload. *)
Definition payload_display : list Event :=
  [SerialPrint (PStr "Message to send: ");
   SerialPrint (PStr "0x"); SerialPrint (PHex 0xA7); SerialPrint (PStr ", ");
   SerialPrint (PStr "0x"); SerialPrint (PHex 0xF1); SerialPrint (PStr ", ");
   SerialPrint (PStr "0x"); SerialPrint (PHex 0xD9); SerialPrint (PStr ", ");
   SerialPrint (PStr "0x"); SerialPrint (PHex 0x2A); SerialPrint (PStr ", ");
   SerialPrint (PStr "0x"); SerialPrint (PHex 0x82); SerialPrint (PStr ", ");
   SerialPrint (PStr "0x"); SerialPrint (PHex 0xC8); SerialPrint (PStr ", ");
   SerialPrint (PStr "0x"); SerialPrint (PHex 0xD8); SerialPrint (PStr ", ");
   SerialPrint (PStr "0x"); SerialPrint (PHex 0xFE);
   SerialPrintln (PStr "")].

(** The events of one sleep phase. *)
Definition sleep_events : list Event :=
  [SerialPrintln (PStr "Entering sleep mode...");
   Rf RfSleep;
   DigitalWrite SWITCH_PIN LOW;
   DigitalWrite LED_PIN LOW]
  ++ repeat (PowerDown SLEEP_250MS ADC_OFF BOD_OFF) 12.

(** The events of the reset pulse and the driver's init call. *)
Definition reset_events : list Event :=
  [PinModeOutput RFM95_RST;
   DigitalWrite RFM95_RST HIGH;
   DigitalWrite RFM95_RST LOW;
   Delay 10;
   DigitalWrite RFM95_RST HIGH;
   Delay 10;
   Rf RfInit].

(** The events of [prepareTransmission]. *)
Definition prepare_events : list Event :=
  [SerialPrintln (PStr "Preparing for transmission...");
   Rf RfSetModeIdle;
   DigitalWrite SWITCH_PIN HIGH;
   Delay 1000].

(** The events of [sendMessage], by what [rf95.send] answered;
    [count_after] is the packet counter once the call is over. *)
Definition send_events (sendOk : bool) (count_after : Z) : list Event :=
  payload_display ++
  Rf (RfSend message) ::
  (if sendOk then
     [SerialPrintln (PStr "Message sent.");
      DigitalWrite LED_PIN HIGH;
      Delay 500;
      DigitalWrite LED_PIN LOW;
      SerialPrint (PStr "Total packets sent: ");
      SerialPrintln (PInt count_after)]
   else
     [SerialPrintln (PStr "Message failed to send.")]).

(** ** Basic facts *)

Lemma skipn_length_app (A : Type) (l k : list A) :
  skipn (List.length l) (l ++ k) = k.
Proof.
  induction l as [|x l IH]; simpl; auto.
Qed.

Lemma since_app (w w' : World) (l : list Event) :
  trace w' = trace w ++ l -> since w w' = l.
Proof.
  intros H. unfold since. rewrite H. apply skipn_length_app.
Qed.

Lemma to_u8_land (x : Z) : to_u8 x = Z.land x (Z.ones 8).
Proof.
  unfold to_u8. rewrite Z.land_ones by lia. reflexivity.
Qed.

Lemma to_u8_range (x : Z) : 0 <= to_u8 x < 256.
Proof.
  unfold to_u8. apply Z.mod_pos_bound. lia.
Qed.

Lemma to_u8_small (x : Z) : 0 <= x < 256 -> to_u8 x = x.
Proof.
  intros H. unfold to_u8. apply Z.mod_small. exact H.
Qed.

Lemma testbit_low_nibble (v n : Z) :
  0 <= n -> Z.testbit (low_nibble v) n = Z.testbit v n && (n <? 4).
Proof.
  intros Hn. unfold low_nibble. change 0x0F with (Z.ones 4).
  rewrite Z.land_spec, Z.testbit_ones_nonneg by lia. reflexivity.
Qed.

Lemma testbit_to_u8 (v n : Z) :
  0 <= n -> Z.testbit (to_u8 v) n = Z.testbit v n && (n <? 8).
Proof.
  intros Hn. rewrite to_u8_land, Z.land_spec, Z.testbit_ones_nonneg by lia.
  reflexivity.
Qed.

Lemma low_nibble_to_u8 (v : Z) : low_nibble (to_u8 v) = low_nibble v.
Proof.
  apply Z.bits_inj'. intros n Hn.
  rewrite !testbit_low_nibble, testbit_to_u8 by lia.
  destruct (Z.ltb_spec n 4); destruct (Z.ltb_spec n 8);
    rewrite ?andb_true_r, ?andb_false_r; auto; lia.
Qed.

Lemma low_nibble_range (v : Z) : 0 <= low_nibble v < 16.
Proof.
  unfold low_nibble. change 0x0F with (Z.ones 4).
  rewrite Z.land_ones by lia. apply Z.mod_pos_bound. lia.
Qed.

(** Clearing the high nibble of a byte and or-ing in a value shifted past
    the low nibble leaves the low nibble as it was. *)
Lemma field_write_keeps_low_nibble (v k : Z) :
  low_nibble (to_u8 (Z.lor (to_u8 (Z.land (to_u8 v) 0x0F)) (Z.shiftl k 4)))
  = low_nibble v.
Proof.
  fold (low_nibble (to_u8 v)).
  apply Z.bits_inj'. intros n Hn.
  repeat first [ rewrite testbit_low_nibble by lia
               | rewrite testbit_to_u8 by lia
               | rewrite Z.lor_spec ].
  destruct (Z.ltb_spec n 4) as [H4|H4].
  - rewrite Z.shiftl_spec_low by lia.
    destruct (Z.ltb_spec n 8); [|lia].
    rewrite orb_false_r, !andb_true_r. reflexivity.
  - rewrite !andb_false_r. reflexivity.
Qed.

Ltac split_cases x k :=
  lazymatch k with
  | O => exfalso; lia
  | S ?k' =>
      let v := eval compute in (Z.of_nat k') in
      destruct (Z.eq_dec x v) as [->|?]; [ | split_cases x k' ]
  end.

Lemma bwValues_nth (c : Z) :
  0 <= c <= 9 -> nth (Z.to_nat c) bwValues 0 = c * 0x10.
Proof.
  intros H. split_cases c 10%nat; reflexivity.
Qed.

Lemma bwValues_shift (c : Z) :
  0 <= c <= 9 -> nth (Z.to_nat c) bwValues 0 = Z.shiftl c 4.
Proof.
  intros H. rewrite bwValues_nth by lia. rewrite Z.shiftl_mul_pow2 by lia.
  reflexivity.
Qed.

(** The same write leaves exactly the shifted value in the high nibble. *)
Lemma field_write_sets_high_nibble (v k : Z) :
  0 <= k < 16 ->
  high_nibble (to_u8 (Z.lor (to_u8 (Z.land (to_u8 v) 0x0F)) (Z.shiftl k 4)))
  = k * 0x10.
Proof.
  intros Hk. fold (low_nibble (to_u8 v)).
  pose proof (low_nibble_range (to_u8 v)) as Hu.
  generalize dependent (low_nibble (to_u8 v)). intros u Hu.
  split_cases k 16%nat; split_cases u 16%nat; reflexivity.
Qed.

Lemma bw_guard (c : Z) : 0 <= c <= 9 -> (0 <=? c) && (c <? 10) = true.
Proof.
  intros H. apply andb_true_intro. split; [apply Z.leb_le | apply Z.ltb_lt]; lia.
Qed.

Lemma bw_guard_out (c : Z) : ~ 0 <= c <= 9 -> (0 <=? c) && (c <? 10) = false.
Proof.
  intros H. destruct (Z.leb_spec 0 c); destruct (Z.ltb_spec c 10); simpl; auto; lia.
Qed.

Lemma sf_guard (sf : Z) : 6 <= sf <= 12 -> (6 <=? sf) && (sf <=? 12) = true.
Proof.
  intros H. apply andb_true_intro. split; apply Z.leb_le; lia.
Qed.

Lemma sf_guard_out (sf : Z) : ~ 6 <= sf <= 12 -> (6 <=? sf) && (sf <=? 12) = false.
Proof.
  intros H. destruct (Z.leb_spec 6 sf); destruct (Z.leb_spec sf 12); simpl; auto; lia.
Qed.

Lemma upd_same (f : Z -> Z) (a v : Z) : upd f a v a = v.
Proof.
  unfold upd. rewrite Z.eqb_refl. reflexivity.
Qed.

Lemma upd_other (f : Z -> Z) (a v x : Z) : x <> a -> upd f a v x = f x.
Proof.
  intros H. unfold upd. destruct (Z.eqb_spec x a); [contradiction | reflexivity].
Qed.

(** ** The two configuration writes, run on any world *)

(** Call-by-value evaluation of the monad and of the primitives on a world
    given by its fields; arithmetic and list append are left alone. *)
Ltac run_sketch :=
  cbv beta iota zeta delta
    [bind spiRead spiWrite rf95 digitalWrite delay pinMode_OUTPUT
     Serial_begin Serial_print Serial_println LowPower_powerDown
     spin_forever gets emit modify ret log set_regs set_pins
     set_totalPacketCount set_isPaused set_serialIn for_loop negb
     regs pins totalPacketCount isPaused serialIn trace];
  rewrite <- ?app_assoc; cbn [app].


Lemma setBandwidth_runs (c : Z) (w : World) :
  0 <= c <= 9 ->
  setBandwidth c w =
  Returns tt
    (mkWorld
       (upd (regs w) RegModemConfig1
          (to_u8 (Z.lor (to_u8 (Z.land (to_u8 (regs w RegModemConfig1)) 0x0F))
                        (Z.shiftl c 4))))
       (pins w) (totalPacketCount w) (isPaused w) (serialIn w)
       (trace w ++
        [SpiRead RegModemConfig1 (to_u8 (regs w RegModemConfig1));
         SpiWrite RegModemConfig1
           (to_u8 (Z.lor (to_u8 (Z.land (to_u8 (regs w RegModemConfig1)) 0x0F))
                         (Z.shiftl c 4)));
         SerialPrint (PStr "Bandwidth set to code: ");
         SerialPrintln (PInt c)])).
Proof.
  intros H. unfold setBandwidth. rewrite (bw_guard H), (bwValues_shift H).
  destruct w as [r p k b s t]. run_sketch.
  rewrite (to_u8_small (to_u8_range _)). reflexivity.
Qed.

Lemma setSpreadingFactor_runs (sf : Z) (w : World) :
  6 <= sf <= 12 ->
  setSpreadingFactor sf w =
  Returns tt
    (mkWorld
       (upd (regs w) RegModemConfig2
          (to_u8 (Z.lor (to_u8 (Z.land (to_u8 (regs w RegModemConfig2)) 0x0F))
                        (Z.shiftl sf 4))))
       (pins w) (totalPacketCount w) (isPaused w) (serialIn w)
       (trace w ++
        [SpiRead RegModemConfig2 (to_u8 (regs w RegModemConfig2));
         SpiWrite RegModemConfig2
           (to_u8 (Z.lor (to_u8 (Z.land (to_u8 (regs w RegModemConfig2)) 0x0F))
                         (Z.shiftl sf 4)));
         SerialPrint (PStr "Spreading Factor set to: ");
         SerialPrintln (PInt sf)])).
Proof.
  intros H. unfold setSpreadingFactor. rewrite (sf_guard H).
  destruct w as [r p k b s t]. run_sketch.
  rewrite (to_u8_small (to_u8_range _)). reflexivity.
Qed.

Lemma setBandwidth_out_of_range (c : Z) (w : World) :
  ~ 0 <= c <= 9 -> setBandwidth c w = Returns tt w.
Proof.
  intros H. unfold setBandwidth. rewrite (bw_guard_out H). reflexivity.
Qed.

Lemma setSpreadingFactor_out_of_range (sf : Z) (w : World) :
  ~ 6 <= sf <= 12 -> setSpreadingFactor sf w = Returns tt w.
Proof.
  intros H. unfold setSpreadingFactor. rewrite (sf_guard_out H). reflexivity.
Qed.

(** ** Claims about the configuration writes *)

(** C1.  For a bandwidth code [c] in 0..9, [setBandwidth c] reads register
    0x1D once and writes it once, the low nibble of the byte written is the
    low nibble of the byte read, and no other register changes; for a
    spreading factor [sf] in 6..12, [setSpreadingFactor sf] does the same on
    register 0x1E, so that the CRC bit (bit 2) is as it was. *)
Theorem config_writes_keep_low_nibble (c sf : Z) (w : World) :
  0 <= c <= 9 -> 6 <= sf <= 12 ->
  (exists w1 v1,
      setBandwidth c w = Returns tt w1 /\
      since w w1 =
        [SpiRead RegModemConfig1 (to_u8 (regs w RegModemConfig1));
         SpiWrite RegModemConfig1 v1;
         SerialPrint (PStr "Bandwidth set to code: ");
         SerialPrintln (PInt c)] /\
      regs w1 RegModemConfig1 = v1 /\
      low_nibble v1 = low_nibble (regs w RegModemConfig1) /\
      (forall a, a <> RegModemConfig1 -> regs w1 a = regs w a)) /\
  (exists w2 v2,
      setSpreadingFactor sf w = Returns tt w2 /\
      since w w2 =
        [SpiRead RegModemConfig2 (to_u8 (regs w RegModemConfig2));
         SpiWrite RegModemConfig2 v2;
         SerialPrint (PStr "Spreading Factor set to: ");
         SerialPrintln (PInt sf)] /\
      regs w2 RegModemConfig2 = v2 /\
      low_nibble v2 = low_nibble (regs w RegModemConfig2) /\
      Z.testbit v2 2 = Z.testbit (regs w RegModemConfig2) 2 /\
      (forall a, a <> RegModemConfig2 -> regs w2 a = regs w a)).
Proof.
  intros Hc Hsf. split.
  - eexists. eexists. split; [apply (setBandwidth_runs w Hc)|].
    split; [apply since_app; reflexivity|].
    split; [apply upd_same|].
    split; [apply field_write_keeps_low_nibble|].
    intros a Ha. simpl. apply upd_other. exact Ha.
  - eexists. eexists. split; [apply (setSpreadingFactor_runs w Hsf)|].
    split; [apply since_app; reflexivity|].
    split; [apply upd_same|].
    split; [apply field_write_keeps_low_nibble|].
    split.
    + pose proof (field_write_keeps_low_nibble (regs w RegModemConfig2) sf) as E.
      apply (f_equal (fun x => Z.testbit x 2)) in E.
      rewrite !testbit_low_nibble in E by lia.
      rewrite !andb_true_r in E. exact E.
    + intros a Ha. simpl. apply upd_other. exact Ha.
Qed.

Lemma config_writes_keep_low_nibble_witness :
  low_nibble (regs (final (setBandwidth 5 all_ones)) RegModemConfig1) = 0x0F /\
  low_nibble (regs (final (setSpreadingFactor 12 all_ones)) RegModemConfig2) = 0x0F.
Proof.
  destruct (@config_writes_keep_low_nibble 5 12 all_ones) as
    [(w1 & v1 & R1 & _ & E1 & L1 & _) (w2 & v2 & R2 & _ & E2 & L2 & _)];
    [lia | lia |].
  rewrite R1, R2. simpl. rewrite E1, E2, L1, L2. split; reflexivity.
Defined.

(** C2, as the sketch has it.  For a code outside 0..9 and a spreading
    factor outside 6..12 the two setters come back normally and leave the
    whole world as it was: no register is read or written and nothing is
    printed.  Being [void], they report no error; the range message comes
    from the console prompts that call them. *)
Theorem out_of_range_config_is_silent_no_op (c sf : Z) (w : World) :
  ~ 0 <= c <= 9 -> ~ 6 <= sf <= 12 ->
  setBandwidth c w = Returns tt w /\
  setSpreadingFactor sf w = Returns tt w /\
  result_of (setBandwidth c w) = Some Ok /\
  result_of (setSpreadingFactor sf w) = Some Ok.
Proof.
  intros Hc Hsf.
  rewrite (setBandwidth_out_of_range w Hc), (setSpreadingFactor_out_of_range w Hsf).
  repeat split.
Qed.

Lemma out_of_range_config_is_silent_no_op_witness :
  setBandwidth 10 all_ones = Returns tt all_ones /\
  setSpreadingFactor 5 all_ones = Returns tt all_ones.
Proof.
  destruct (@out_of_range_config_is_silent_no_op 10 5 all_ones) as (A & B & _);
    [lia | lia |].
  split; [exact A | exact B].
Defined.

(** C2 as stated fails: an out-of-range call does not fail with
    [OutOfRange]; it returns normally, in the very world it was given, with
    nothing on the console. *)
Lemma out_of_range_config_reports_no_error :
  result_of (setBandwidth 10 all_ones) <> Some (Err OutOfRange) /\
  result_of (setSpreadingFactor 13 all_ones) <> Some (Err OutOfRange) /\
  setBandwidth 10 all_ones = Returns tt all_ones /\
  setSpreadingFactor 13 all_ones = Returns tt all_ones /\
  trace (final (setBandwidth (-1) all_ones)) = [] /\
  trace (final (setSpreadingFactor 5 all_ones)) = [].
Proof.
  split; [simpl; discriminate|]. split; [simpl; discriminate|].
  repeat split.
Qed.

(** C4.  The table has the ten entries 0x00, 0x10, ..., 0x90, its entry for
    code [c] is [c * 0x10], and after [setBandwidth c] the high nibble of
    register 0x1D holds exactly that pattern; for code 5 it is 0x50. *)
Theorem bandwidth_pattern_is_code_times_16 :
  bwValues = [0x00; 0x10; 0x20; 0x30; 0x40; 0x50; 0x60; 0x70; 0x80; 0x90] /\
  (forall c w, 0 <= c <= 9 ->
     nth (Z.to_nat c) bwValues 0 = c * 0x10 /\
     exists w', setBandwidth c w = Returns tt w' /\
                high_nibble (regs w' RegModemConfig1) = c * 0x10) /\
  (forall w, exists w', setBandwidth 5 w = Returns tt w' /\
                        high_nibble (regs w' RegModemConfig1) = 0x50).
Proof.
  assert (G : forall c w, 0 <= c <= 9 ->
     exists w', setBandwidth c w = Returns tt w' /\
                high_nibble (regs w' RegModemConfig1) = c * 0x10).
  { intros c w Hc. eexists. split; [apply (setBandwidth_runs w Hc)|].
    simpl. rewrite upd_same. apply field_write_sets_high_nibble. lia. }
  split; [reflexivity|]. split.
  - intros c w Hc. split; [apply bwValues_nth; exact Hc | apply G; exact Hc].
  - intros w. apply (G 5 w). lia.
Qed.

Lemma bandwidth_pattern_is_code_times_16_witness :
  nth (Z.to_nat 9) bwValues 0 = 9 * 0x10 /\
  high_nibble (regs (final (setBandwidth 9 all_ones)) RegModemConfig1) = 0x90.
Proof.
  destruct bandwidth_pattern_is_code_times_16 as (_ & G & _).
  destruct (G 9 all_ones) as (N & w' & R & Hh); [lia|].
  split; [exact N|]. rewrite R. simpl. exact Hh.
Defined.

(** C9.  For [c] in 0..9 and [sf] in 6..12 the two setters commute on the
    chip: either order leaves the same value in every register (and the same
    pins, counter, pause flag and pending input), register 0x1D holding what
    [setBandwidth] alone writes and register 0x1E what [setSpreadingFactor]
    alone writes. *)
Theorem setBandwidth_setSpreadingFactor_commute (c sf : Z) (w : World) :
  0 <= c <= 9 -> 6 <= sf <= 12 ->
  exists w12 w21 wb ws,
    (setBandwidth c ;; setSpreadingFactor sf) w = Returns tt w12 /\
    (setSpreadingFactor sf ;; setBandwidth c) w = Returns tt w21 /\
    setBandwidth c w = Returns tt wb /\
    setSpreadingFactor sf w = Returns tt ws /\
    (forall a, regs w12 a = regs w21 a) /\
    regs w12 RegModemConfig1 = regs wb RegModemConfig1 /\
    regs w12 RegModemConfig2 = regs ws RegModemConfig2 /\
    (forall a, a <> RegModemConfig1 -> a <> RegModemConfig2 ->
               regs w12 a = regs w a) /\
    pins w12 = pins w21 /\
    totalPacketCount w12 = totalPacketCount w21 /\
    isPaused w12 = isPaused w21 /\
    serialIn w12 = serialIn w21.
Proof.
  intros Hc Hsf. unfold bind.
  rewrite (setBandwidth_runs w Hc), (setSpreadingFactor_runs w Hsf).
  rewrite (setSpreadingFactor_runs _ Hsf), (setBandwidth_runs _ Hc).
  do 4 eexists. do 4 (split; [reflexivity|]). simpl.
  split; [|split; [|split; [|repeat split]]].
  - intros a. unfold upd, RegModemConfig1, RegModemConfig2.
    destruct (Z.eqb_spec a 30); destruct (Z.eqb_spec a 29); try lia; reflexivity.
  - unfold upd, RegModemConfig1, RegModemConfig2. reflexivity.
  - unfold upd, RegModemConfig1, RegModemConfig2. reflexivity.
  - intros a H1 H2. rewrite !upd_other by assumption. reflexivity.
Qed.

Lemma setBandwidth_setSpreadingFactor_commute_witness :
  regs (final ((setBandwidth 5 ;; setSpreadingFactor 12) all_ones)) RegModemConfig1
  = regs (final ((setSpreadingFactor 12 ;; setBandwidth 5) all_ones)) RegModemConfig1 /\
  regs (final ((setBandwidth 5 ;; setSpreadingFactor 12) all_ones)) RegModemConfig2
  = regs (final ((setSpreadingFactor 12 ;; setBandwidth 5) all_ones)) RegModemConfig2.
Proof.
  destruct (@setBandwidth_setSpreadingFactor_commute 5 12 all_ones) as
    (w12 & w21 & wb & ws & R12 & R21 & _ & _ & E & _); [lia | lia |].
  rewrite R12, R21. simpl. split; apply E.
Defined.

(** ** Straight-line functions, run on any world *)

Lemma waitForNextCycle_runs eff (w : World) :
  waitForNextCycle eff w =
  Returns tt
    (mkWorld (eff RfSleep (regs w))
       (upd_pin (upd_pin (pins w) SWITCH_PIN LOW) LED_PIN LOW)
       (totalPacketCount w) (isPaused w) (serialIn w)
       (trace w ++ sleep_events)).
Proof.
  destruct w as [r p c b s t]. unfold waitForNextCycle. run_sketch. reflexivity.
Qed.

Lemma prepareTransmission_runs eff (w : World) :
  prepareTransmission eff w =
  Returns tt
    (mkWorld (eff RfSetModeIdle (regs w))
       (upd_pin (pins w) SWITCH_PIN HIGH)
       (totalPacketCount w) (isPaused w) (serialIn w)
       (trace w ++
        [SerialPrintln (PStr "Preparing for transmission...");
         Rf RfSetModeIdle;
         DigitalWrite SWITCH_PIN HIGH;
         Delay 1000])).
Proof.
  destruct w as [r p c b s t]. unfold prepareTransmission. run_sketch. reflexivity.
Qed.

Lemma displayMessage_runs (w : World) :
  displayMessage message (Z.of_nat (List.length message)) w =
  Returns tt
    (mkWorld (regs w) (pins w) (totalPacketCount w) (isPaused w) (serialIn w)
       (trace w ++ payload_display)).
Proof.
  destruct w as [r p c b s t]. cbv -[app].
  rewrite <- !app_assoc. reflexivity.
Qed.

Lemma sendMessage_runs_ok eff (w : World) :
  sendMessage eff true w =
  Returns tt
    (mkWorld (eff (RfSend message) (regs w))
       (upd_pin (upd_pin (pins w) LED_PIN HIGH) LED_PIN LOW)
       (to_ulong (totalPacketCount w + 1)) (isPaused w) (serialIn w)
       (trace w ++ payload_display ++
        [Rf (RfSend message);
         SerialPrintln (PStr "Message sent.");
         DigitalWrite LED_PIN HIGH;
         Delay 500;
         DigitalWrite LED_PIN LOW;
         SerialPrint (PStr "Total packets sent: ");
         SerialPrintln (PInt (to_ulong (totalPacketCount w + 1)))])).
Proof.
  unfold sendMessage, bind at 1. rewrite displayMessage_runs.
  destruct w as [r p c b s t]. unfold blinkLED, displayPacketCount.
  run_sketch. reflexivity.
Qed.

Lemma sendMessage_runs_failed eff (w : World) :
  sendMessage eff false w =
  Returns tt
    (mkWorld (eff (RfSend message) (regs w))
       (pins w) (totalPacketCount w) (isPaused w) (serialIn w)
       (trace w ++ payload_display ++
        [Rf (RfSend message);
         SerialPrintln (PStr "Message failed to send.")])).
Proof.
  unfold sendMessage, bind at 1. rewrite displayMessage_runs.
  destruct w as [r p c b s t]. run_sketch. reflexivity.
Qed.

Lemma enableCRC_runs (w : World) :
  enableCRC w =
  Returns tt
    (mkWorld
       (upd (regs w) RegModemConfig2
          (to_u8 (Z.lor (to_u8 (regs w RegModemConfig2)) 4)))
       (pins w) (totalPacketCount w) (isPaused w) (serialIn w)
       (trace w ++
        [SpiRead RegModemConfig2 (to_u8 (regs w RegModemConfig2));
         SpiWrite RegModemConfig2
           (to_u8 (Z.lor (to_u8 (regs w RegModemConfig2)) 4))])).
Proof.
  destruct w as [r p c b s t]. unfold enableCRC. run_sketch.
  rewrite (to_u8_small (to_u8_range _)). reflexivity.
Qed.

Lemma testbit_4 (n : Z) : 0 <= n -> Z.testbit 4 n = (2 =? n).
Proof.
  intros H. change 4 with (2 ^ 2). apply Z.pow2_bits_eqb. lia.
Qed.

Lemma testbit_crc_on (v n : Z) :
  0 <= n ->
  Z.testbit (to_u8 (Z.lor (to_u8 v) 4)) n
  = (Z.testbit v n && (n <? 8)) || (2 =? n).
Proof.
  intros H. rewrite testbit_to_u8, Z.lor_spec, testbit_to_u8, testbit_4 by lia.
  destruct (Z.testbit v n); destruct (Z.ltb_spec n 8);
    destruct (Z.eqb_spec 2 n); simpl; auto; lia.
Qed.

Lemma crc_on_idempotent (v : Z) :
  to_u8 (Z.lor (to_u8 (to_u8 (Z.lor (to_u8 v) 4))) 4)
  = to_u8 (Z.lor (to_u8 v) 4).
Proof.
  apply Z.bits_inj'. intros n Hn.
  rewrite testbit_crc_on by lia. rewrite !testbit_crc_on by lia.
  destruct (Z.testbit v n); destruct (Z.ltb_spec n 8);
    destruct (Z.eqb_spec 2 n); simpl; auto.
Qed.

Lemma initializeRF95Module_init_failed eff (w : World) :
  exists wh,
    initializeRF95Module eff false w = Hangs wh /\
    trace wh = trace w ++ reset_events ++
               [SerialPrintln (PStr "RF95 initialization failed.")] /\
    totalPacketCount wh = totalPacketCount w /\
    isPaused wh = isPaused w.
Proof.
  destruct w as [r p c b s t]. unfold initializeRF95Module. run_sketch.
  eexists. split; [reflexivity|]. cbn [trace totalPacketCount isPaused].
  repeat split.
Qed.

Lemma initializeRF95Module_init_ok eff (w : World) :
  exists w' l,
    initializeRF95Module eff true w = Returns tt w' /\
    trace w' = trace w ++ reset_events ++ l /\
    Z.testbit (regs w' RegModemConfig2) 2 = true.
Proof.
  destruct w as [r p c b s t]. unfold initializeRF95Module, enableCRC.
  run_sketch.
  eexists. eexists. split; [reflexivity|]. cbn [trace regs]. split; [reflexivity|].
  rewrite upd_same. rewrite (to_u8_small (to_u8_range _)).
  rewrite testbit_crc_on by lia. apply orb_true_r.
Qed.

(** ** Console commands *)

(** On a string without NUL bytes [equalsIgnoreCase] is equality of the
    lowered strings. *)
Lemma equalsIgnoreCase_lowercase (a b : string) :
  contains_char NUL a = false ->
  equalsIgnoreCase a b = String.eqb (lowercase a) (lowercase b).
Proof.
  unfold equalsIgnoreCase.
  revert b. induction a as [|x a IH]; intros [|y b] H; try reflexivity.
  cbn [contains_char] in H. apply orb_false_iff in H. destruct H as [Hx Ha].
  cbn [String.length Nat.eqb equal_to_first_nul lowercase String.eqb].
  rewrite Hx, <- (IH b Ha).
  destruct (Ascii.eqb (tolower x) (tolower y));
    destruct (Nat.eqb (String.length a) (String.length b)); reflexivity.
Qed.

Lemma split_until_line (t : ascii) (line rest : string) :
  contains_char t line = false ->
  split_until t (line ++ String t rest)%string = (line, rest).
Proof.
  induction line as [|x line IH]; simpl; intros H.
  - rewrite Ascii.eqb_refl. reflexivity.
  - apply orb_false_iff in H. destruct H as [Hx Hl].
    rewrite Hx, (IH Hl). reflexivity.
Qed.

(** *** What [trim] takes away *)

Lemma string_app_nil (s : string) : (s ++ EmptyString)%string = s.
Proof.
  induction s as [|c s IH]; simpl; [reflexivity | rewrite IH; reflexivity].
Qed.

Lemma string_app_assoc (a b c : string) :
  ((a ++ b) ++ c)%string = (a ++ b ++ c)%string.
Proof.
  induction a as [|x a IH]; simpl; [reflexivity | rewrite IH; reflexivity].
Qed.

Lemma rev_string_app (acc s t : string) :
  rev_string acc (s ++ t) = rev_string (rev_string acc s) t.
Proof.
  revert acc. induction s as [|c s IH]; intros acc; simpl; [reflexivity|].
  apply IH.
Qed.

Lemma rev_string_acc (acc s : string) :
  rev_string acc s = (rev_string EmptyString s ++ acc)%string.
Proof.
  revert acc. induction s as [|c s IH]; intros acc; simpl; [reflexivity|].
  rewrite (IH (String c acc)), (IH (String c EmptyString)).
  rewrite string_app_assoc. reflexivity.
Qed.

Lemma rev_string_twice (a b s : string) :
  rev_string a (rev_string b s) = rev_string (s ++ a) b.
Proof.
  revert b. induction s as [|c s IH]; intros b; simpl; [reflexivity|].
  rewrite IH. reflexivity.
Qed.

Lemma rev_string_involutive (s : string) :
  rev_string EmptyString (rev_string EmptyString s) = s.
Proof.
  rewrite rev_string_twice. simpl. apply string_app_nil.
Qed.

Lemma all_space_rev_string (acc p : string) :
  all_space (rev_string acc p) = all_space acc && all_space p.
Proof.
  revert acc. induction p as [|c p IH]; intros acc; simpl.
  - rewrite andb_true_r. reflexivity.
  - rewrite IH. simpl.
    destruct (isspace c); destruct (all_space acc); destruct (all_space p);
      reflexivity.
Qed.

Lemma skip_spaces_pad (p s : string) :
  all_space p = true -> skip_spaces (p ++ s) = skip_spaces s.
Proof.
  induction p as [|c p IH]; simpl; intros H; [reflexivity|].
  apply andb_true_iff in H. destruct H as [Hc Hp].
  rewrite Hc. apply IH. exact Hp.
Qed.

Lemma skip_spaces_rev_pad (acc p : string) :
  all_space p = true -> skip_spaces (rev_string acc p) = skip_spaces acc.
Proof.
  revert acc. induction p as [|c p IH]; intros acc H; simpl; [reflexivity|].
  simpl in H. apply andb_true_iff in H. destruct H as [Hc Hp].
  rewrite (IH _ Hp). simpl. rewrite Hc. reflexivity.
Qed.

Lemma skip_spaces_solid (s : string) :
  starts_solid s = true -> skip_spaces s = s.
Proof.
  destruct s as [|c s]; simpl; intros H; [reflexivity|].
  apply negb_true_iff in H. rewrite H. reflexivity.
Qed.

Lemma skip_spaces_decompose (s : string) :
  exists p, all_space p = true /\ s = (p ++ skip_spaces s)%string.
Proof.
  induction s as [|c s (p & Hp & Hs)]; simpl.
  - exists EmptyString. split; reflexivity.
  - destruct (isspace c) eqn:Hc.
    + exists (String c p). simpl. rewrite Hc, Hp. split; [reflexivity|].
      rewrite <- Hs. reflexivity.
    + exists EmptyString. split; reflexivity.
Qed.

(** [trim] gives back a string that was wrapped in white space, when the
    string itself neither begins nor ends with white space. *)
Lemma trim_of_padded (before core after : string) :
  all_space before = true -> all_space after = true ->
  starts_solid core = true ->
  starts_solid (rev_string EmptyString core) = true ->
  trim (before ++ core ++ after) = core.
Proof.
  intros Hb Ha Hs He. unfold trim.
  rewrite skip_spaces_pad by exact Hb.
  destruct core as [|c core].
  - simpl. rewrite <- (string_app_nil after).
    rewrite skip_spaces_pad by exact Ha. reflexivity.
  - assert (K : skip_spaces (String c core ++ after)
                = (String c core ++ after)%string).
    { simpl in Hs. apply negb_true_iff in Hs. simpl. rewrite Hs.
      reflexivity. }
    rewrite K, rev_string_app.
    rewrite skip_spaces_rev_pad by exact Ha.
    rewrite skip_spaces_solid by exact He. apply rev_string_involutive.
Qed.

(** Whatever [trim] takes away is white space at the two ends. *)
Lemma trim_decompose (s : string) :
  exists before after,
    all_space before = true /\ all_space after = true /\
    s = (before ++ trim s ++ after)%string.
Proof.
  destruct (skip_spaces_decompose s) as (p1 & Hp1 & Hs).
  destruct (skip_spaces_decompose (rev_string EmptyString (skip_spaces s)))
    as (q & Hq & Hr).
  exists p1, (rev_string EmptyString q).
  split; [exact Hp1|]. split.
  - rewrite all_space_rev_string. simpl. exact Hq.
  - unfold trim. rewrite Hs at 1. f_equal.
    rewrite <- (rev_string_involutive (skip_spaces s)) at 1.
    rewrite Hr at 1. rewrite rev_string_app. apply rev_string_acc.
Qed.

Lemma isspace_tolower (x : ascii) : isspace x = true -> tolower x = x.
Proof.
  destruct x as [[] [] [] [] [] [] [] []]; intros H;
    first [ discriminate H | reflexivity ].
Qed.

Lemma tolower_NUL (x : ascii) : Ascii.eqb x NUL = true -> tolower x = NUL.
Proof.
  intros H. apply Ascii.eqb_eq in H. subst x. reflexivity.
Qed.

(** A character that lowers to a letter is neither white space nor NUL. *)
Lemma lowers_to_letter (x y : ascii) :
  tolower x = y -> isspace y = false -> Ascii.eqb y NUL = false ->
  isspace x = false /\ Ascii.eqb x NUL = false.
Proof.
  intros E Hs Hn. split.
  - destruct (isspace x) eqn:Hx; [|reflexivity].
    rewrite (isspace_tolower _ Hx) in E. subst y. rewrite Hx in Hs.
    discriminate.
  - destruct (Ascii.eqb x NUL) eqn:Hx; [|reflexivity].
    rewrite (tolower_NUL _ Hx) in E. subst y. discriminate.
Qed.

(** The two command words, in any case: no white space at either end, no
    NUL byte, and [equalsIgnoreCase] knows them. *)
Lemma stop_word (word : string) :
  lowercase word = "stop"%string ->
  starts_solid word = true /\
  starts_solid (rev_string EmptyString word) = true /\
  contains_char NUL word = false /\
  equalsIgnoreCase word "STOP" = true.
Proof.
  intros E.
  assert (N : starts_solid word = true /\
              starts_solid (rev_string EmptyString word) = true /\
              contains_char NUL word = false).
  { destruct word as [|a [|b [|c [|d [|e word]]]]]; try discriminate E.
    cbn [lowercase] in E. injection E as Ea Eb Ec Ed.
    destruct (@lowers_to_letter _ _ Ea eq_refl eq_refl) as [Sa Na].
    destruct (@lowers_to_letter _ _ Eb eq_refl eq_refl) as [_ Nb].
    destruct (@lowers_to_letter _ _ Ec eq_refl eq_refl) as [_ Nc].
    destruct (@lowers_to_letter _ _ Ed eq_refl eq_refl) as [Sd Nd].
    cbn [starts_solid rev_string contains_char].
    rewrite Sa, Sd, Na, Nb, Nc, Nd. repeat split. }
  destruct N as (S1 & S2 & N). repeat split; try assumption.
  rewrite (@equalsIgnoreCase_lowercase _ _ N), E. reflexivity.
Qed.

Lemma go_word (word : string) :
  lowercase word = "go"%string ->
  starts_solid word = true /\
  starts_solid (rev_string EmptyString word) = true /\
  contains_char NUL word = false /\
  equalsIgnoreCase word "GO" = true.
Proof.
  intros E.
  assert (N : starts_solid word = true /\
              starts_solid (rev_string EmptyString word) = true /\
              contains_char NUL word = false).
  { destruct word as [|a [|b [|c word]]]; try discriminate E.
    cbn [lowercase] in E. injection E as Ea Eb.
    destruct (@lowers_to_letter _ _ Ea eq_refl eq_refl) as [Sa Na].
    destruct (@lowers_to_letter _ _ Eb eq_refl eq_refl) as [Sb Nb].
    cbn [starts_solid rev_string contains_char].
    rewrite Sa, Sb, Na, Nb. repeat split. }
  destruct N as (S1 & S2 & N). repeat split; try assumption.
  rewrite (@equalsIgnoreCase_lowercase _ _ N), E. reflexivity.
Qed.

Lemma is_command_stop (line : string) :
  is_command "stop" line -> equalsIgnoreCase (trim line) "STOP" = true.
Proof.
  intros (before & word & after & Hb & Ha & -> & E).
  destruct (@stop_word _ E) as (S1 & S2 & _ & Q).
  rewrite (@trim_of_padded _ _ _ Hb Ha S1 S2). exact Q.
Qed.

Lemma is_command_go (line : string) :
  is_command "go" line ->
  equalsIgnoreCase (trim line) "GO" = true /\
  equalsIgnoreCase (trim line) "STOP" = false.
Proof.
  intros (before & word & after & Hb & Ha & -> & E).
  destruct (@go_word _ E) as (S1 & S2 & N & Q).
  rewrite (@trim_of_padded _ _ _ Hb Ha S1 S2). split; [exact Q|].
  rewrite (@equalsIgnoreCase_lowercase _ _ N), E. reflexivity.
Qed.

Lemma trimmed_is_command (name line : string) :
  lowercase (trim line) = name -> is_command name line.
Proof.
  intros E. destruct (trim_decompose line) as (before & after & Hb & Ha & Hl).
  exists before, (trim line), after. repeat split; assumption.
Qed.

Lemma contains_char_rev_string (x : ascii) (s acc : string) :
  contains_char x (rev_string acc s)
  = contains_char x acc || contains_char x s.
Proof.
  revert acc. induction s as [|c s IH]; intros acc; simpl.
  - rewrite orb_false_r. reflexivity.
  - rewrite IH. simpl.
    destruct (Ascii.eqb c x); destruct (contains_char x acc);
      destruct (contains_char x s); reflexivity.
Qed.

Lemma contains_char_skip_spaces (x : ascii) (s : string) :
  contains_char x s = false -> contains_char x (skip_spaces s) = false.
Proof.
  induction s as [|c s IH]; simpl; intros H; [reflexivity|].
  apply orb_false_iff in H. destruct H as [Hc Hs].
  destruct (isspace c); [apply IH; exact Hs|].
  simpl. rewrite Hc, Hs. reflexivity.
Qed.

Lemma contains_char_trim (x : ascii) (s : string) :
  contains_char x s = false -> contains_char x (trim s) = false.
Proof.
  intros H. unfold trim. rewrite contains_char_rev_string. simpl.
  apply contains_char_skip_spaces. rewrite contains_char_rev_string. simpl.
  apply contains_char_skip_spaces. exact H.
Qed.

(** A line without NUL bytes that is not a command word is not taken for
    it. *)
Lemma not_that_command (name NAME line : string) :
  lowercase NAME = name ->
  contains_char NUL line = false -> ~ is_command name line ->
  equalsIgnoreCase (trim line) NAME = false.
Proof.
  intros En N H.
  rewrite (@equalsIgnoreCase_lowercase _ NAME (@contains_char_trim _ _ N)), En.
  destruct (String.eqb_spec (lowercase (trim line)) name) as [E|_];
    [|reflexivity].
  exfalso. apply H. apply trimmed_is_command. exact E.
Qed.

Lemma not_a_command (line : string) :
  contains_char NUL line = false ->
  ~ is_command "stop" line -> ~ is_command "go" line ->
  equalsIgnoreCase (trim line) "STOP" = false /\
  equalsIgnoreCase (trim line) "GO" = false.
Proof.
  intros N Hs Hg. split.
  - apply (@not_that_command "stop" "STOP" line eq_refl N Hs).
  - apply (@not_that_command "go" "GO" line eq_refl N Hg).
Qed.

Lemma line_wait_is_quiet (buffer : string) :
  forallb is_console (line_wait buffer) = true /\
  delayed_ms (line_wait buffer) = 0 /\
  slept_ms (line_wait buffer) = 0 /\
  writes_to SWITCH_PIN (line_wait buffer) = [] /\
  writes_to LED_PIN (line_wait buffer) = [] /\
  send_attempts (line_wait buffer) = 0%nat /\
  spi_writes (line_wait buffer) = [] /\
  power_down_steps (line_wait buffer) = [] /\
  printed_lines "Message sent." (line_wait buffer) = 0%nat /\
  printed_lines "Message failed to send." (line_wait buffer) = 0%nat.
Proof.
  unfold line_wait.
  destruct (String.eqb buffer EmptyString || contains_char newline buffer);
    repeat split.
Qed.

Ltac command_case l :=
  eexists; exists l; split; [reflexivity|];
  cbn [regs pins totalPacketCount isPaused serialIn trace];
  split; [rewrite ?app_nil_r; reflexivity|];
  split; [eexists; split; [|reflexivity]; unfold command_reply; auto|];
  repeat split.

Lemma checkForStopOrGo_runs (w : World) :
  exists w1 l,
    checkForStopOrGo w = Returns tt w1 /\
    trace w1 = trace w ++ l /\
    command_events (serialIn w) l /\
    regs w1 = regs w /\
    pins w1 = pins w /\
    totalPacketCount w1 = totalPacketCount w /\
    serialIn w1 = snd (split_until newline (serialIn w)) /\
    isPaused w1 =
      match pending_command w with
      | None => isPaused w
      | Some cmd =>
          if equalsIgnoreCase cmd "STOP" then true
          else if equalsIgnoreCase cmd "GO" then false
          else isPaused w
      end.
Proof.
  unfold checkForStopOrGo, Serial_available, Serial_readStringUntil,
    pending_command, command_events, line_wait, bind, gets.
  destruct (String.eqb_spec (serialIn w) EmptyString) as [E|E]; simpl.
  - exists w, []. rewrite app_nil_r. repeat split.
    + exists []. split; [left; reflexivity | reflexivity].
    + rewrite E. reflexivity.
  - destruct (split_until newline (serialIn w)) as [line rest]; simpl.
    destruct (contains_char newline (serialIn w));
      (destruct (equalsIgnoreCase (trim line) "STOP");
       [|destruct (equalsIgnoreCase (trim line) "GO")]);
      destruct w as [r p c b s t]; run_sketch;
      [ command_case
          [SerialPrintln (PStr "Process paused. Enter 'GO' to resume.")]
      | command_case [SerialPrintln (PStr "Process resumed.")]
      | command_case (@nil Event)
      | command_case
          [ReadStringTimeout SERIAL_TIMEOUT;
           SerialPrintln (PStr "Process paused. Enter 'GO' to resume.")]
      | command_case
          [ReadStringTimeout SERIAL_TIMEOUT;
           SerialPrintln (PStr "Process resumed.")]
      | command_case [ReadStringTimeout SERIAL_TIMEOUT] ].
Qed.

Lemma command_events_no_send (buffer : string) (l : list Event) :
  command_events buffer l ->
  forallb is_console l = true /\
  send_attempts l = 0%nat /\ spi_writes l = [] /\ power_down_steps l = [].
Proof.
  intros (reply & Rep & ->).
  destruct (line_wait_is_quiet buffer) as (C & _ & _ & _ & _ & A & W & D & _).
  unfold send_attempts, spi_writes, power_down_steps in *.
  rewrite forallb_app, filter_app, length_app, !flat_map_app, C, A, W, D.
  destruct Rep as [->|[->| ->]]; repeat split.
Qed.

Lemma loop_when_paused eff (ok : bool) (w w1 : World) :
  checkForStopOrGo w = Returns tt w1 -> isPaused w1 = true ->
  loop eff ok w = Returns tt w1.
Proof.
  intros R P. unfold loop, bind at 1. rewrite R.
  unfold bind, gets. rewrite P. reflexivity.
Qed.

Lemma loop_when_running eff (ok : bool) (w w1 : World) :
  checkForStopOrGo w = Returns tt w1 -> isPaused w1 = false ->
  loop eff ok w =
  (prepareTransmission eff ;; sendMessage eff ok ;; waitForNextCycle eff) w1.
Proof.
  intros R P. unfold loop, bind at 1. rewrite R.
  unfold bind at 1, gets. rewrite P. reflexivity.
Qed.

(** ** One pass of the transmit cycle *)

Lemma console_only_no_send (l : list Event) :
  forallb is_serial_out l = true ->
  send_attempts l = 0%nat /\ spi_writes l = [] /\ power_down_steps l = [].
Proof.
  unfold send_attempts.
  induction l as [|e l IH]; simpl; intros H; [repeat split|].
  apply andb_true_iff in H. destruct H as [He Hl].
  destruct (IH Hl) as (A & B & C).
  destruct e; try discriminate He; simpl; repeat split; assumption.
Qed.

Lemma send_attempts_app (l k : list Event) :
  send_attempts (l ++ k) = (send_attempts l + send_attempts k)%nat.
Proof.
  unfold send_attempts. rewrite filter_app, length_app. reflexivity.
Qed.

Lemma transmit_cycle_runs eff (ok : bool) (w : World) :
  exists wp ws wz,
    prepareTransmission eff w = Returns tt wp /\
    sendMessage eff ok wp = Returns tt ws /\
    waitForNextCycle eff ws = Returns tt wz /\
    (prepareTransmission eff ;; sendMessage eff ok ;; waitForNextCycle eff) w
      = Returns tt wz /\
    trace wp = trace w ++ prepare_events /\
    trace ws = trace wp ++ send_events ok (totalPacketCount ws) /\
    trace wz = trace ws ++ sleep_events /\
    totalPacketCount wp = totalPacketCount w /\
    totalPacketCount ws =
      (if ok then to_ulong (totalPacketCount w + 1) else totalPacketCount w) /\
    totalPacketCount wz = totalPacketCount ws /\
    isPaused wz = isPaused w /\
    serialIn wz = serialIn w.
Proof.
  destruct ok.
  - do 3 eexists.
    split; [apply prepareTransmission_runs|].
    split; [apply sendMessage_runs_ok|].
    split; [apply waitForNextCycle_runs|].
    split.
    { unfold bind. rewrite prepareTransmission_runs, sendMessage_runs_ok.
      apply waitForNextCycle_runs. }
    cbn [trace totalPacketCount isPaused serialIn]. repeat split.
  - do 3 eexists.
    split; [apply prepareTransmission_runs|].
    split; [apply sendMessage_runs_failed|].
    split; [apply waitForNextCycle_runs|].
    split.
    { unfold bind. rewrite prepareTransmission_runs, sendMessage_runs_failed.
      apply waitForNextCycle_runs. }
    cbn [trace totalPacketCount isPaused serialIn]. repeat split.
Qed.

(** C3, as the sketch has it.  With the counter in its 32-bit range, a
    successful send leaves [count + 1] modulo 2^32 in the counter (exactly
    [count + 1] below 2^32 - 1) and pulses the LED high for 500 ms; a failed
    send leaves counter and pins alone and drives no pin.  Either way the
    sleep phase follows with the same events, the pass makes one send
    attempt, and the sleep phase does not touch the counter.  Every pass of
    [loop], paused or not, returns with the counter as it was or one more
    modulo 2^32. *)
Theorem sendMessage_counter_and_pulse eff (w : World) :
  0 <= totalPacketCount w < ULONG_MODULUS ->
  (exists w',
      sendMessage eff true w = Returns tt w' /\
      totalPacketCount w' = to_ulong (totalPacketCount w + 1) /\
      (totalPacketCount w < ULONG_MODULUS - 1 ->
       totalPacketCount w' = totalPacketCount w + 1) /\
      since w w' = send_events true (totalPacketCount w') /\
      writes_to LED_PIN (since w w') = [HIGH; LOW]) /\
  (exists w',
      sendMessage eff false w = Returns tt w' /\
      totalPacketCount w' = totalPacketCount w /\
      pins w' = pins w /\
      since w w' = send_events false (totalPacketCount w') /\
      writes_to LED_PIN (since w w') = []) /\
  (forall ok w0 wc,
      checkForStopOrGo w0 = Returns tt wc -> isPaused wc = false ->
      exists wp ws wz,
        prepareTransmission eff wc = Returns tt wp /\
        sendMessage eff ok wp = Returns tt ws /\
        waitForNextCycle eff ws = Returns tt wz /\
        loop eff ok w0 = Returns tt wz /\
        since ws wz = sleep_events /\
        send_attempts (since w0 wz) = 1%nat /\
        totalPacketCount ws =
          (if ok then to_ulong (totalPacketCount w0 + 1)
           else totalPacketCount w0) /\
        totalPacketCount wz = totalPacketCount ws) /\
  (forall ok w0, exists wz,
      loop eff ok w0 = Returns tt wz /\
      (totalPacketCount wz = totalPacketCount w0 \/
       totalPacketCount wz = to_ulong (totalPacketCount w0 + 1))).
Proof.
  intros Hwf. split; [|split; [|split]]; cycle 3.
  { intros ok w0.
    destruct (checkForStopOrGo_runs w0) as (wc & l & Rc & _ & _ & _ & _ & Cc & _).
    destruct (isPaused wc) eqn:Pc.
    - exists wc. split; [apply (loop_when_paused eff ok w0 Rc Pc)|].
      left. exact Cc.
    - destruct (transmit_cycle_runs eff ok wc)
        as (wp & ws & wz & _ & _ & _ & Rall & _ & _ & _ & _ & Cs & Cz & _).
      exists wz. split; [rewrite (loop_when_running eff ok w0 Rc Pc); exact Rall|].
      rewrite Cz, Cs, Cc. destruct ok; [right | left]; reflexivity. }
  - eexists. split; [apply sendMessage_runs_ok|].
    cbn [totalPacketCount trace pins].
    split; [reflexivity|]. split.
    + intros Hlt. unfold to_ulong, ULONG_MODULUS in *.
      change (2 ^ 32) with 4294967296 in *. apply Z.mod_small. lia.
    + assert (E : forall w', trace w' = trace w ++ send_events true
                  (to_ulong (totalPacketCount w + 1)) ->
                  since w w' = send_events true (to_ulong (totalPacketCount w + 1)))
        by (intros; apply since_app; assumption).
      rewrite E by reflexivity. split; reflexivity.
  - eexists. split; [apply sendMessage_runs_failed|].
    cbn [totalPacketCount trace pins].
    split; [reflexivity|]. split; [reflexivity|].
    assert (E : forall w', trace w' = trace w ++ send_events false
                  (totalPacketCount w) ->
                  since w w' = send_events false (totalPacketCount w))
      by (intros; apply since_app; assumption).
    rewrite E by reflexivity. split; reflexivity.
  - intros ok w0 wc Rc Pc.
    destruct (checkForStopOrGo_runs w0) as (wc' & l & Rc' & Tc & Lc & _ & _ & Cc & _).
    rewrite Rc in Rc'. injection Rc' as <-.
    destruct (transmit_cycle_runs eff ok wc)
      as (wp & ws & wz & Rp & Rs & Rz & Rall & Tp & Ts & Tz & Cp & Cs & Cz & _).
    exists wp, ws, wz.
    split; [exact Rp|]. split; [exact Rs|]. split; [exact Rz|].
    split; [rewrite (loop_when_running eff ok w0 Rc Pc); exact Rall|].
    split; [apply since_app; exact Tz|].
    split; [|split; [rewrite Cs, Cc; reflexivity | exact Cz]].
    rewrite (since_app w0 wz (l ++ prepare_events ++
               send_events ok (totalPacketCount ws) ++ sleep_events)).
    + rewrite !send_attempts_app.
      destruct (@command_events_no_send _ _ Lc) as (_ & -> & _).
      unfold send_events. rewrite send_attempts_app.
      destruct ok; reflexivity.
    + rewrite Tz, Ts, Tp, Tc. rewrite <- !app_assoc. reflexivity.
Qed.

Lemma sendMessage_counter_and_pulse_witness :
  totalPacketCount (final (sendMessage no_effect true power_on)) = 1 /\
  totalPacketCount (final (sendMessage no_effect false power_on)) = 0 /\
  send_attempts (since power_on (final (loop no_effect false power_on))) = 1%nat.
Proof.
  destruct (@sendMessage_counter_and_pulse no_effect power_on)
    as ((w1 & R1 & _ & C1 & _) & (w2 & R2 & C2 & _) & L & _);
    [unfold ULONG_MODULUS; simpl; lia|].
  destruct (L false power_on power_on) as (wp & ws & wz & _ & _ & _ & Rl & _ & S & _);
    [reflexivity | reflexivity |].
  rewrite R1, R2, Rl. simpl.
  split; [apply C1; unfold ULONG_MODULUS; simpl; lia|].
  split; [exact C2 | exact S].
Defined.

(** C3 as stated fails once the counter is at its 32-bit maximum: a
    successful send wraps it to 0, which is neither one more nor not less. *)
Lemma packet_counter_wraps_at_max :
  totalPacketCount counter_at_max = 4294967295 /\
  returned (sendMessage no_effect true counter_at_max) = true /\
  totalPacketCount (final (sendMessage no_effect true counter_at_max)) = 0 /\
  totalPacketCount (final (sendMessage no_effect true counter_at_max))
    <> totalPacketCount counter_at_max + 1 /\
  totalPacketCount (final (sendMessage no_effect true counter_at_max))
    < totalPacketCount counter_at_max.
Proof.
  vm_compute. repeat split; discriminate.
Qed.

(** C5.  [waitForNextCycle] always returns; after announcing itself on the
    console it puts the radio to sleep, then drives the load switch low, then
    the LED low, then makes exactly 12 power-down steps of 250 ms each,
    3000 ms or three time units in all; it is the last thing a running pass
    of [loop] does, so the pass returns as it returns. *)
Theorem waitForNextCycle_sleep_sequence eff (w : World) :
  exists w',
    waitForNextCycle eff w = Returns tt w' /\
    since w w' =
      [SerialPrintln (PStr "Entering sleep mode...");
       Rf RfSleep;
       DigitalWrite SWITCH_PIN LOW;
       DigitalWrite LED_PIN LOW]
      ++ repeat (PowerDown SLEEP_250MS ADC_OFF BOD_OFF) 12 /\
    power_down_steps (since w w') = repeat SLEEP_250MS 12 /\
    List.length (power_down_steps (since w w')) = 12%nat /\
    period_ms SLEEP_250MS = Some 250 /\
    slept_ms (since w w') = 3 * time_unit_ms /\
    pins w' SWITCH_PIN = LOW /\
    pins w' LED_PIN = LOW /\
    totalPacketCount w' = totalPacketCount w /\
    isPaused w' = isPaused w /\
    serialIn w' = serialIn w /\
    (forall ok w0 wc,
        checkForStopOrGo w0 = Returns tt wc -> isPaused wc = false ->
        exists ws wz,
          (prepareTransmission eff ;; sendMessage eff ok) wc = Returns tt ws /\
          waitForNextCycle eff ws = Returns tt wz /\
          loop eff ok w0 = Returns tt wz).
Proof.
  eexists. split; [apply waitForNextCycle_runs|].
  assert (E : forall w', trace w' = trace w ++ sleep_events ->
                         since w w' = sleep_events)
    by (intros; apply since_app; assumption).
  rewrite E by reflexivity. simpl.
  do 10 (split; [reflexivity|]).
  intros ok w0 wc Rc Pc.
  destruct (transmit_cycle_runs eff ok wc)
    as (wp & ws & wz & Rp & Rs & Rz & Rall & _).
  exists ws, wz. split; [unfold bind; rewrite Rp; exact Rs|].
  split; [exact Rz|].
  rewrite (loop_when_running eff ok w0 Rc Pc). exact Rall.
Qed.

Lemma waitForNextCycle_sleep_sequence_witness :
  returned (loop no_effect true power_on) = true /\
  slept_ms (since power_on (final (waitForNextCycle no_effect power_on)))
    = 3 * time_unit_ms.
Proof.
  destruct (@waitForNextCycle_sleep_sequence no_effect power_on)
    as (w' & R & _ & _ & _ & _ & S & _ & _ & _ & _ & _ & L).
  destruct (L true power_on power_on) as (ws & wz & _ & _ & Rl);
    [reflexivity | reflexivity |].
  rewrite Rl, R. split; [reflexivity | exact S].
Defined.

(** C7, as the sketch has it.  When [rf95.init] answers false the module
    initialisation never returns: it prints one line and spins, and so do
    [initializeSystem] and [setup] around it, in the same world.  It returns
    exactly when [rf95.init] answers true.  Whatever the answer, the reset
    line is driven low, held for 10 ms, driven high and left high for 10 ms
    before [rf95.init] is called. *)
Theorem initializeRF95Module_halts_on_init_failure eff (w : World) (bwCode sf : Z) :
  (exists wh,
      initializeRF95Module eff false w = Hangs wh /\
      initializeSystem eff false w = Hangs wh /\
      since w wh =
        [PinModeOutput RFM95_RST;
         DigitalWrite RFM95_RST HIGH;
         DigitalWrite RFM95_RST LOW;
         Delay 10;
         DigitalWrite RFM95_RST HIGH;
         Delay 10;
         Rf RfInit;
         SerialPrintln (PStr "RF95 initialization failed.")]) /\
  (exists wh,
      setup eff false bwCode sf w = Hangs wh /\
      since w wh =
        SerialBegin 9600 :: reset_events ++
        [SerialPrintln (PStr "RF95 initialization failed.")]) /\
  (forall initOk, returned (initializeRF95Module eff initOk w) = initOk) /\
  (forall initOk, exists l,
      since w (final (initializeRF95Module eff initOk w)) = reset_events ++ l /\
      reset_pulse true 0 0
        (since w (final (initializeRF95Module eff initOk w))) = Some (10, 10)).
Proof.
  split; [|split; [|split]].
  - destruct (initializeRF95Module_init_failed eff w) as (wh & R & T & _).
    exists wh. split; [exact R|]. split.
    + unfold initializeSystem, bind. rewrite R. reflexivity.
    + apply since_app. exact T.
  - destruct (initializeRF95Module_init_failed eff (log (SerialBegin 9600) w))
      as (wh & R & T & _).
    exists wh. split.
    + unfold setup, initializeSystem, Serial_begin, emit, bind at 1.
      unfold bind at 1. unfold bind at 1. rewrite R. reflexivity.
    + apply since_app. rewrite T. simpl. rewrite <- app_assoc. reflexivity.
  - intros [|].
    + destruct (initializeRF95Module_init_ok eff w) as (w' & l & R & _).
      rewrite R. reflexivity.
    + destruct (initializeRF95Module_init_failed eff w) as (wh & R & _).
      rewrite R. reflexivity.
  - intros [|].
    + destruct (initializeRF95Module_init_ok eff w) as (w' & l & R & T & _).
      rewrite R. simpl. rewrite (since_app w w' _ T).
      exists l. split; reflexivity.
    + destruct (initializeRF95Module_init_failed eff w) as (wh & R & T & _).
      rewrite R. simpl. rewrite (since_app w wh _ T).
      eexists. split; reflexivity.
Qed.

(** C7 as stated fails on the durations: with the specification's time unit
    of 1000 ms, the line is low, and then high, for 10 ms before
    [rf95.init], a hundredth of a time unit and not ten. *)
Lemma reset_pulse_is_ten_milliseconds :
  reset_pulse true 0 0
    (since power_on (final (initializeRF95Module no_effect true power_on)))
    = Some (10, 10) /\
  ~ 10 * time_unit_ms <= 10.
Proof.
  split; [reflexivity | unfold time_unit_ms; lia].
Qed.

(** C8, as the sketch has it.  The CRC switch reads register 0x1E, sets
    bit 2 and nothing else, and writes the byte back whether or not it
    changed.  A second application therefore leaves every register as the
    first left it, and still makes one read and one write of the same
    value. *)
Theorem enableCRC_idempotent_on_register (w : World) :
  exists w1 w2,
    enableCRC w = Returns tt w1 /\
    enableCRC w1 = Returns tt w2 /\
    Z.testbit (regs w1 RegModemConfig2) 2 = true /\
    (forall n, 0 <= n -> n <> 2 ->
       Z.testbit (regs w1 RegModemConfig2) n
       = Z.testbit (to_u8 (regs w RegModemConfig2)) n) /\
    (forall a, a <> RegModemConfig2 -> regs w1 a = regs w a) /\
    (forall a, regs w2 a = regs w1 a) /\
    since w w1 =
      [SpiRead RegModemConfig2 (to_u8 (regs w RegModemConfig2));
       SpiWrite RegModemConfig2 (regs w1 RegModemConfig2)] /\
    since w1 w2 =
      [SpiRead RegModemConfig2 (regs w1 RegModemConfig2);
       SpiWrite RegModemConfig2 (regs w1 RegModemConfig2)] /\
    spi_writes (since w1 w2) = [(RegModemConfig2, regs w1 RegModemConfig2)].
Proof.
  do 2 eexists. split; [apply enableCRC_runs|].
  split; [apply enableCRC_runs|]. cbn [regs trace].
  rewrite !upd_same.
  split; [rewrite testbit_crc_on by lia; apply orb_true_r|].
  split.
  { intros n Hn Hne. rewrite testbit_crc_on, testbit_to_u8 by lia.
    destruct (Z.eqb_spec 2 n); [lia|]. apply orb_false_r. }
  split; [intros a Ha; apply upd_other; exact Ha|].
  split.
  { intros a. unfold upd. destruct (Z.eqb_spec a RegModemConfig2); [|reflexivity].
    apply crc_on_idempotent. }
  split; [apply since_app; reflexivity|].
  assert (E : forall l (wa wb : World), trace wb = trace wa ++ l -> since wa wb = l)
    by (intros; apply since_app; assumption).
  erewrite E.
  2:{ cbn [regs trace].
      rewrite crc_on_idempotent, (to_u8_small (to_u8_range _)). reflexivity. }
  split; reflexivity.
Qed.

Lemma enableCRC_idempotent_on_register_witness :
  Z.testbit (regs (final (enableCRC power_on)) RegModemConfig2) 2 = true /\
  Z.testbit (regs (final (enableCRC power_on)) RegModemConfig2) 0
  = Z.testbit (to_u8 (regs power_on RegModemConfig2)) 0 /\
  regs (final (enableCRC power_on)) RegPreambleLsb
  = regs power_on RegPreambleLsb.
Proof.
  destruct (enableCRC_idempotent_on_register power_on)
    as (w1 & w2 & R1 & _ & B & O & F & _).
  rewrite R1. cbn [final]. split; [exact B|]. split.
  - apply O; lia.
  - apply F. unfold RegPreambleLsb, RegModemConfig2. lia.
Defined.

(** C8 as stated fails: with bit 2 already set the register keeps its value
    and the bus write is made all the same. *)
Lemma enableCRC_writes_unchanged_value :
  regs crc_already_on RegModemConfig2 = 0x04 /\
  regs (final (enableCRC crc_already_on)) RegModemConfig2 = 0x04 /\
  spi_writes (since crc_already_on (final (enableCRC crc_already_on)))
    = [(RegModemConfig2, 0x04)].
Proof.
  repeat split.
Qed.

Example trim_strips_both_ends :
  trim (String (ascii_of_N 9) "  sToP " ++ String (ascii_of_N 13) "")%string
  = "sToP"%string.
Proof. reflexivity. Qed.

Example stop_in_any_case :
  equalsIgnoreCase "sToP" "STOP" = true /\ equalsIgnoreCase "go" "GO" = true.
Proof. split; reflexivity. Qed.

Example inner_space_is_kept :
  trim " ST OP " = "ST OP"%string /\
  equalsIgnoreCase (trim " ST OP ") "STOP" = false.
Proof. split; reflexivity. Qed.

Lemma pending_command_of_line (line rest : string) (w : World) :
  contains_char newline line = false ->
  serialIn w = (line ++ String newline rest)%string ->
  pending_command w = Some (trim line) /\
  snd (split_until newline (serialIn w)) = rest.
Proof.
  intros Hl Hs. unfold pending_command. rewrite Hs, (split_until_line newline line rest Hl).
  split; [|reflexivity].
  destruct line; reflexivity.
Qed.

Lemma checkForStopOrGo_line (line rest : string) (w : World) :
  contains_char newline line = false ->
  serialIn w = (line ++ String newline rest)%string ->
  exists w',
    checkForStopOrGo w = Returns tt w' /\
    serialIn w' = rest /\
    totalPacketCount w' = totalPacketCount w /\
    isPaused w' =
      (if equalsIgnoreCase (trim line) "STOP" then true
       else if equalsIgnoreCase (trim line) "GO" then false
       else isPaused w).
Proof.
  intros Hl Hs.
  destruct (checkForStopOrGo_runs w) as (w' & l & R & _ & _ & _ & _ & C & S & P).
  destruct (@pending_command_of_line line rest w Hl Hs) as (Hp & Hr).
  exists w'. split; [exact R|]. split; [rewrite S; exact Hr|].
  split; [exact C|].
  rewrite P, Hp. reflexivity.
Qed.

(** A command, as [is_command] has it, holds no NUL byte. *)
Lemma tolower_keeps_nul (x : ascii) :
  Ascii.eqb (tolower x) NUL = Ascii.eqb x NUL.
Proof.
  destruct x as [[] [] [] [] [] [] [] []]; reflexivity.
Qed.

Lemma contains_nul_lowercase (s : string) :
  contains_char NUL (lowercase s) = contains_char NUL s.
Proof.
  induction s as [|c s IH]; simpl; [reflexivity|].
  rewrite IH, tolower_keeps_nul. reflexivity.
Qed.

Lemma contains_char_app (x : ascii) (a b : string) :
  contains_char x (a ++ b) = contains_char x a || contains_char x b.
Proof.
  induction a as [|c a IH]; simpl; [reflexivity|].
  rewrite IH, orb_assoc. reflexivity.
Qed.

Lemma all_space_no_nul (s : string) :
  all_space s = true -> contains_char NUL s = false.
Proof.
  induction s as [|c s IH]; simpl; intros H; [reflexivity|].
  apply andb_true_iff in H. destruct H as [Hc Hs].
  rewrite (IH Hs), orb_false_r.
  destruct (Ascii.eqb_spec c NUL) as [->|_]; [discriminate Hc | reflexivity].
Qed.

Lemma is_command_no_nul (name line : string) :
  contains_char NUL name = false -> is_command name line ->
  contains_char NUL line = false.
Proof.
  intros N (before & word & after & Hb & Ha & -> & E).
  rewrite !contains_char_app, (all_space_no_nul _ Hb), (all_space_no_nul _ Ha).
  rewrite <- contains_nul_lowercase, E, N. reflexivity.
Qed.

Lemma inner_space_is_no_command :
  contains_char NUL " ST OP " = false /\
  ~ is_command "stop" " ST OP " /\ ~ is_command "go" " ST OP ".
Proof.
  split; [reflexivity|]. split; intros C.
  - apply is_command_stop in C. discriminate C.
  - apply is_command_go in C. destruct C as [C _]. discriminate C.
Qed.

(** C6, as the sketch has it.  When a line is waiting, [checkForStopOrGo]
    consumes it with its newline.  A line that is STOP in any case, with any
    white space before and after it, sets the pause flag; GO, likewise,
    clears it; a line without NUL bytes that is neither leaves the flag as it
    was, and so does an empty receive buffer.  With the three lines STOP,
    GO, STOP waiting, three passes of [loop] end with the flag true, false,
    true, whatever the flag was and whatever the sends answer. *)
Theorem commands_drive_pause_flag :
  (forall line rest w,
      contains_char newline line = false ->
      serialIn w = (line ++ String newline rest)%string ->
      exists w',
        checkForStopOrGo w = Returns tt w' /\
        serialIn w' = rest /\
        (is_command "stop" line -> isPaused w' = true) /\
        (is_command "go" line -> isPaused w' = false) /\
        (contains_char NUL line = false ->
         ~ is_command "stop" line -> ~ is_command "go" line ->
         isPaused w' = isPaused w)) /\
  (forall w, serialIn w = EmptyString -> checkForStopOrGo w = Returns tt w) /\
  (forall eff ok1 ok2 ok3 rest w,
      serialIn w = ("STOP" ++ nl ++ "GO" ++ nl ++ "STOP" ++ nl ++ rest)%string ->
      exists w1 w2 w3,
        loop eff ok1 w = Returns tt w1 /\
        loop eff ok2 w1 = Returns tt w2 /\
        loop eff ok3 w2 = Returns tt w3 /\
        map isPaused [w1; w2; w3] = [true; false; true]).
Proof.
  split; [|split].
  - intros line rest w Hl Hs.
    destruct (@checkForStopOrGo_line line rest w Hl Hs) as (w' & R & S & _ & P).
    exists w'. split; [exact R|]. split; [exact S|]. split; [|split].
    + intros C. rewrite P, (is_command_stop C). reflexivity.
    + intros C. destruct (is_command_go C) as [G N].
      rewrite P, G, N. reflexivity.
    + intros N Hstop Hgo.
      destruct (not_a_command N Hstop Hgo) as [E1 E2].
      rewrite P, E1, E2. reflexivity.
  - intros w Hs. unfold checkForStopOrGo, Serial_available, bind, gets.
    rewrite Hs. reflexivity.
  - intros eff ok1 ok2 ok3 rest w Hs.
    destruct (@checkForStopOrGo_line "STOP" ("GO" ++ nl ++ "STOP" ++ nl ++ rest)%string w)
      as (w1 & R1 & S1 & _ & P1); [reflexivity | exact Hs |].
    change (isPaused w1 = true) in P1.
    destruct (@checkForStopOrGo_line "GO" ("STOP" ++ nl ++ rest)%string w1)
      as (wc & Rc & Sc & _ & Pc); [reflexivity | exact S1 |].
    change (isPaused wc = false) in Pc.
    destruct (transmit_cycle_runs eff ok2 wc)
      as (wp & ws & w2 & _ & _ & _ & Rall & _ & _ & _ & _ & _ & _ & P2 & S2).
    destruct (@checkForStopOrGo_line "STOP" rest w2)
      as (w3 & R3 & S3 & _ & P3); [reflexivity | rewrite S2; exact Sc |].
    change (isPaused w3 = true) in P3.
    exists w1, w2, w3.
    split; [apply (loop_when_paused eff ok1 w R1 P1)|].
    split; [rewrite (loop_when_running eff ok2 w1 Rc Pc); exact Rall|].
    split; [apply (loop_when_paused eff ok3 w2 R3 P3)|].
    simpl. rewrite P1, P2, Pc, P3. reflexivity.
Qed.

Lemma commands_drive_pause_flag_witness :
  map isPaused
    [final (loop no_effect true three_commands);
     final ((loop no_effect true ;; loop no_effect false) three_commands);
     final ((loop no_effect true ;; loop no_effect false ;; loop no_effect true)
              three_commands)]
  = [true; false; true] /\
  isPaused (final (checkForStopOrGo running_with_padded_stop)) = true /\
  isPaused (final (checkForStopOrGo paused_with_inner_space))
  = isPaused paused_with_inner_space.
Proof.
  destruct commands_drive_pause_flag as (L & _ & Q).
  destruct (Q no_effect true false true EmptyString three_commands)
    as (w1 & w2 & w3 & R1 & R2 & R3 & P); [reflexivity|].
  destruct (L "  sToP "%string EmptyString running_with_padded_stop)
    as (w' & R & _ & P' & _); [reflexivity | reflexivity |].
  destruct (L " ST OP "%string EmptyString paused_with_inner_space)
    as (w'' & R' & _ & _ & _ & K); [reflexivity | reflexivity |].
  destruct inner_space_is_no_command as (N & Hstop & Hgo).
  unfold bind. rewrite R1, R2, R3, R, R'. simpl. split; [exact P|]. split.
  - apply P'. exists "  "%string, "sToP"%string, " "%string. repeat split.
  - apply (K N Hstop Hgo).
Defined.

(** C6 as stated fails on lines that hold NUL bytes: [equalsIgnoreCase]
    stops at the first NUL of the line it was given.  A line of two NUL
    bytes is not GO, yet it clears the pause flag; the line S NUL NUL NUL is
    not STOP, yet it sets the flag. *)
Lemma nul_line_is_taken_for_a_command :
  String.length nul_line = 2%nat /\
  serialIn paused_with_nul_line = (nul_line ++ nl)%string /\
  ~ is_command "stop" nul_line /\
  ~ is_command "go" nul_line /\
  isPaused paused_with_nul_line = true /\
  isPaused (final (checkForStopOrGo paused_with_nul_line)) = false /\
  String.length s_nul_line = 4%nat /\
  serialIn running_with_s_nul_line = (s_nul_line ++ nl)%string /\
  ~ is_command "stop" s_nul_line /\
  ~ is_command "go" s_nul_line /\
  isPaused running_with_s_nul_line = false /\
  isPaused (final (checkForStopOrGo running_with_s_nul_line)) = true.
Proof.
  assert (N : forall name line,
             contains_char NUL name = false ->
             contains_char NUL line = true -> ~ is_command name line).
  { intros name line Hn Hl C.
    rewrite (is_command_no_nul Hn C) in Hl. discriminate. }
  repeat split; try (apply N; reflexivity).
Qed.





(** * Further properties of the sketch *)

(** ** [Stream::parseInt] *)

Lemma peekNextDigit_length (s : string) :
  (String.length (peekNextDigit s) <= String.length s)%nat.
Proof.
  induction s as [|c s IH]; simpl; [lia|].
  destruct (is_minus c || is_digit c); simpl; lia.
Qed.

Lemma read_digits_length (s : string) (v : Z) :
  (String.length (snd (read_digits v s)) <= String.length s)%nat.
Proof.
  revert v. induction s as [|c s IH]; intros v; simpl; [lia|].
  destruct (is_digit c); [specialize (IH (to_long (v * 10 + digit_value c))); lia|].
  destruct (Ascii.eqb c NO_IGNORE_CHAR); [specialize (IH v); lia|].
  simpl. lia.
Qed.

(** A call with something in the buffer takes at least one character. *)
Lemma parseInt_consumes (s : string) :
  s <> EmptyString ->
  (String.length (snd (parseInt s)) < String.length s)%nat.
Proof.
  intros Hs. unfold parseInt.
  pose proof (peekNextDigit_length s) as Hp.
  destruct (peekNextDigit s) as [|c s'] eqn:E.
  - destruct s; [contradiction | simpl; lia].
  - pose proof (read_digits_length s'
                  (if is_digit c then to_long (digit_value c) else 0)) as Hr.
    destruct (read_digits (if is_digit c then to_long (digit_value c) else 0) s')
      as [v rest].
    simpl in *. lia.
Qed.

Lemma peekNextDigit_no_number (s : string) :
  no_number_start s = true -> peekNextDigit s = EmptyString.
Proof.
  induction s as [|c s IH]; simpl; intros H; [reflexivity|].
  apply andb_true_iff in H. destruct H as [Hc Hs].
  apply negb_true_iff in Hc. rewrite Hc. apply IH. exact Hs.
Qed.

Lemma peekNextDigit_skips (junk s : string) :
  no_number_start junk = true ->
  peekNextDigit (junk ++ s)%string = peekNextDigit s.
Proof.
  induction junk as [|c junk IH]; simpl; intros H; [reflexivity|].
  apply andb_true_iff in H. destruct H as [Hc Hs].
  apply negb_true_iff in Hc. rewrite Hc. apply IH. exact Hs.
Qed.

Lemma digit_char_is_digit (d : Z) :
  0 <= d <= 9 ->
  is_digit (digit_char d) = true /\
  is_minus (digit_char d) = false /\
  digit_value (digit_char d) = d.
Proof.
  intros H. split_cases d 10%nat; repeat split.
Qed.

Lemma to_long_small (x : Z) : 0 <= x < 2 ^ 31 -> to_long x = x.
Proof.
  intros H. unfold to_long.
  change (2 ^ 31) with 2147483648 in *. change (2 ^ 32) with 4294967296.
  rewrite Z.mod_small by lia. lia.
Qed.

Lemma to_int_small (x : Z) : - 2 ^ 15 <= x < 2 ^ 15 -> to_int x = x.
Proof.
  intros H. unfold to_int.
  change (2 ^ 15) with 32768 in *. change (2 ^ 16) with 65536.
  rewrite Z.mod_small by lia. lia.
Qed.

Lemma decimal_fold_grows (ds : list Z) (v : Z) :
  Forall (fun d => 0 <= d <= 9) ds -> 0 <= v ->
  v <= fold_left (fun v d => v * 10 + d) ds v.
Proof.
  intros Hds. revert v. induction Hds as [|d ds Hd Hds IH]; intros v Hv; simpl.
  - lia.
  - specialize (IH (v * 10 + d)). lia.
Qed.

Lemma read_digits_decimal (ds : list Z) (v : Z) (c : ascii) (rest : string) :
  Forall (fun d => 0 <= d <= 9) ds -> 0 <= v ->
  fold_left (fun v d => v * 10 + d) ds v < 2 ^ 31 ->
  is_digit c = false -> Ascii.eqb c NO_IGNORE_CHAR = false ->
  read_digits v (digit_string ds ++ String c rest)
  = (fold_left (fun v d => v * 10 + d) ds v, String c rest).
Proof.
  intros Hds. revert v.
  induction Hds as [|d ds Hd Hds IH]; intros v Hv Hlt Hc Hi; simpl.
  - rewrite Hc, Hi. reflexivity.
  - destruct (@digit_char_is_digit d Hd) as (D & _ & V). rewrite D, V.
    cbn [fold_left] in Hlt.
    pose proof (@decimal_fold_grows ds (v * 10 + d) Hds) as G.
    rewrite to_long_small by lia.
    apply IH; try assumption; lia.
Qed.

(** A run of decimal digits, after any characters that cannot start a
    number and before a character that cannot continue one, is read as its
    decimal value; the character after it stays in the buffer. *)
Lemma parseInt_decimal (junk : string) (ds : list Z) (c : ascii) (rest : string) :
  no_number_start junk = true ->
  ds <> [] -> Forall (fun d => 0 <= d <= 9) ds ->
  decimal_value ds < 2 ^ 31 ->
  is_digit c = false -> Ascii.eqb c NO_IGNORE_CHAR = false ->
  parseInt (junk ++ digit_string ds ++ String c rest)
  = (decimal_value ds, String c rest).
Proof.
  intros Hj Hne Hds Hlt Hc Hi. unfold parseInt.
  rewrite (@peekNextDigit_skips junk _ Hj).
  destruct Hds as [|d ds Hd Hds]; [contradiction|].
  destruct (@digit_char_is_digit d Hd) as (D & Mi & V).
  simpl. rewrite D, Mi, orb_true_r, V.
  unfold decimal_value in *. cbn [fold_left] in *.
  change (0 * 10 + d) with d in *.
  pose proof (@decimal_fold_grows ds d Hds) as G.
  rewrite to_long_small by lia. rewrite D, Mi.
  rewrite (@read_digits_decimal ds d c rest) by (try assumption; lia).
  reflexivity.
Qed.

Lemma parseInt_no_number (s : string) :
  no_number_start s = true -> parseInt s = (0, EmptyString).
Proof.
  intros H. unfold parseInt. rewrite (@peekNextDigit_no_number s H). reflexivity.
Qed.

(** ** The prompt loop *)

Lemma prompt_loop_unfold (lo hi : Z) (sel inv : string) (n : nat) (w : World) :
  prompt_loop lo hi sel inv (S n) w =
  if String.eqb (serialIn w) EmptyString then Hangs w
  else
    let (v, rest) := parseInt (serialIn w) in
    let x := to_int v in
    if (lo <=? x) && (x <=? hi) then
      Returns x
        (mkWorld (regs w) (pins w) (totalPacketCount w) (isPaused w) rest
           (trace w ++ [SerialPrint (PStr sel); SerialPrintln (PInt x)]))
    else
      prompt_loop lo hi sel inv n
        (mkWorld (regs w) (pins w) (totalPacketCount w) (isPaused w) rest
           (trace w ++ [SerialPrintln (PStr inv)])).
Proof.
  destruct w as [r p c b s t]. cbn [prompt_loop].
  unfold bind at 1. unfold Serial_available, gets. cbn [serialIn].
  destruct (String.eqb s EmptyString); cbn [negb]; [reflexivity|].
  unfold bind at 1. unfold Serial_parseInt. cbn [serialIn].
  destruct (parseInt s) as [v rest]. cbn zeta.
  destruct ((lo <=? to_int v) && (to_int v <=? hi)).
  - run_sketch. reflexivity.
  - unfold bind, Serial_println, emit, log, set_serialIn.
    cbn [regs pins totalPacketCount isPaused serialIn trace]. reflexivity.
Qed.

Lemma prompt_loop_spec (lo hi : Z) (sel inv : string) (fuel : nat) (w : World) :
  (String.length (serialIn w) < fuel)%nat ->
  match prompt_loop lo hi sel inv fuel w with
  | Returns x w' =>
      lo <= x <= hi /\
      same_device w w' /\
      (String.length (serialIn w') < String.length (serialIn w))%nat /\
      exists k,
        trace w' = trace w ++ repeat (SerialPrintln (PStr inv)) k ++
                   [SerialPrint (PStr sel); SerialPrintln (PInt x)]
  | Hangs w' =>
      serialIn w' = EmptyString /\
      same_device w w' /\
      exists k, trace w' = trace w ++ repeat (SerialPrintln (PStr inv)) k
  end.
Proof.
  revert w. induction fuel as [|n IH]; intros w Hf; [lia|].
  rewrite prompt_loop_unfold.
  destruct (String.eqb_spec (serialIn w) EmptyString) as [E|E].
  - split; [exact E|]. split; [repeat split|].
    exists 0%nat. simpl. rewrite app_nil_r. reflexivity.
  - pose proof (parseInt_consumes E) as Hc.
    destruct (parseInt (serialIn w)) as [v rest]. cbn [snd] in Hc. cbn zeta.
    destruct ((lo <=? to_int v) && (to_int v <=? hi)) eqn:R.
    + apply andb_true_iff in R. destruct R as [R1 R2].
      apply Z.leb_le in R1. apply Z.leb_le in R2.
      split; [lia|]. split; [repeat split|]. split; [exact Hc|].
      exists 0%nat. reflexivity.
    + set (w1 := mkWorld (regs w) (pins w) (totalPacketCount w) (isPaused w)
                   rest (trace w ++ [SerialPrintln (PStr inv)])).
      assert (H1 : (String.length (serialIn w1) < n)%nat) by (simpl; lia).
      specialize (IH w1 H1).
      destruct (prompt_loop lo hi sel inv n w1) as [x w'|w'].
      * destruct IH as (Hx & Hd & Hl & k & Ht).
        split; [exact Hx|]. split; [exact Hd|]. split; [simpl in Hl; lia|].
        exists (S k). rewrite Ht. simpl. rewrite <- app_assoc. reflexivity.
      * destruct IH as (Hs & Hd & k & Ht).
        split; [exact Hs|]. split; [exact Hd|].
        exists (S k). rewrite Ht. simpl. rewrite <- app_assoc. reflexivity.
Qed.

(** Fuel beyond the length of the buffer is never used. *)
Lemma prompt_loop_fuel (lo hi : Z) (sel inv : string) (n m : nat) (w : World) :
  (String.length (serialIn w) < n)%nat ->
  (String.length (serialIn w) < m)%nat ->
  prompt_loop lo hi sel inv n w = prompt_loop lo hi sel inv m w.
Proof.
  revert m w. induction n as [|n IH]; intros m w Hn Hm; [lia|].
  destruct m as [|m]; [lia|].
  rewrite !prompt_loop_unfold.
  destruct (String.eqb_spec (serialIn w) EmptyString) as [E|E]; [reflexivity|].
  pose proof (parseInt_consumes E) as Hc.
  destruct (parseInt (serialIn w)) as [v rest]. cbn [snd] in Hc. cbn zeta.
  destruct ((lo <=? to_int v) && (to_int v <=? hi)); [reflexivity|].
  apply IH; simpl; lia.
Qed.

Lemma prompt_fuel (lo hi : Z) (sel inv : string) (n : nat) (w : World) :
  (String.length (serialIn w) < n)%nat ->
  prompt_loop lo hi sel inv n w = prompt lo hi sel inv w.
Proof.
  intros H. unfold prompt. apply prompt_loop_fuel; lia.
Qed.


Lemma string_length_append (a b : string) :
  String.length (a ++ b) = (String.length a + String.length b)%nat.
Proof.
  induction a as [|x a IH]; simpl; [reflexivity | rewrite IH; reflexivity].
Qed.

Lemma typed_number_not_empty (junk : string) (ds : list Z) (c : ascii) (rest : string) :
  (junk ++ digit_string ds ++ String c rest)%string <> EmptyString.
Proof.
  destruct junk; [|discriminate]. destruct ds; discriminate.
Qed.

Lemma prompt_accepts (lo hi : Z) (sel inv junk : string) (ds : list Z)
  (c : ascii) (rest : string) (w : World) :
  no_number_start junk = true ->
  ds <> [] -> Forall (fun d => 0 <= d <= 9) ds ->
  is_digit c = false -> Ascii.eqb c NO_IGNORE_CHAR = false ->
  serialIn w = (junk ++ digit_string ds ++ String c rest)%string ->
  lo <= decimal_value ds <= hi -> hi < 2 ^ 15 ->
  prompt lo hi sel inv w =
  Returns (decimal_value ds)
    (mkWorld (regs w) (pins w) (totalPacketCount w) (isPaused w)
       (String c rest)
       (trace w ++ [SerialPrint (PStr sel);
                    SerialPrintln (PInt (decimal_value ds))])).
Proof.
  intros Hj Hne Hds Hc Hi Hs Hr Hhi.
  assert (H0 : 0 <= decimal_value ds).
  { unfold decimal_value. apply (@decimal_fold_grows ds 0 Hds). lia. }
  change (2 ^ 15) with 32768 in Hhi.
  unfold prompt. rewrite prompt_loop_unfold, Hs.
  destruct (String.eqb_spec (junk ++ digit_string ds ++ String c rest) EmptyString)
    as [E|_]; [exfalso; exact (typed_number_not_empty _ _ _ _ E)|].
  rewrite parseInt_decimal by
    (try assumption; change (2 ^ 31) with 2147483648; lia).
  cbn zeta. rewrite to_int_small by (change (2 ^ 15) with 32768; lia).
  replace ((lo <=? decimal_value ds) && (decimal_value ds <=? hi)) with true;
    [reflexivity|].
  symmetry. apply andb_true_intro. split; apply Z.leb_le; lia.
Qed.

Lemma prompt_rejects (lo hi : Z) (sel inv junk : string) (ds : list Z)
  (c : ascii) (rest : string) (w : World) :
  no_number_start junk = true ->
  ds <> [] -> Forall (fun d => 0 <= d <= 9) ds ->
  is_digit c = false -> Ascii.eqb c NO_IGNORE_CHAR = false ->
  serialIn w = (junk ++ digit_string ds ++ String c rest)%string ->
  ~ lo <= decimal_value ds <= hi -> decimal_value ds < 2 ^ 15 ->
  prompt lo hi sel inv w =
  prompt lo hi sel inv
    (mkWorld (regs w) (pins w) (totalPacketCount w) (isPaused w)
       (String c rest) (trace w ++ [SerialPrintln (PStr inv)])).
Proof.
  intros Hj Hne Hds Hc Hi Hs Hr Hhi.
  assert (H0 : 0 <= decimal_value ds).
  { unfold decimal_value. apply (@decimal_fold_grows ds 0 Hds). lia. }
  change (2 ^ 15) with 32768 in Hhi.
  unfold prompt at 1. rewrite prompt_loop_unfold, Hs.
  destruct (String.eqb_spec (junk ++ digit_string ds ++ String c rest) EmptyString)
    as [E|_]; [exfalso; exact (typed_number_not_empty _ _ _ _ E)|].
  rewrite parseInt_decimal by
    (try assumption; change (2 ^ 31) with 2147483648; lia).
  cbn zeta. rewrite to_int_small by (change (2 ^ 15) with 32768; lia).
  replace ((lo <=? decimal_value ds) && (decimal_value ds <=? hi)) with false.
  - apply prompt_fuel. cbn [serialIn].
    rewrite !string_length_append. simpl.
    destruct ds; [contradiction|]. simpl. lia.
  - symmetry. destruct (Z.leb_spec lo (decimal_value ds));
      destruct (Z.leb_spec (decimal_value ds) hi); simpl; auto; lia.
Qed.





Lemma announce_then_prompt (p : string) (lo hi : Z) (sel inv : string) (w : World) :
  (Serial_println (PStr p) ;; prompt lo hi sel inv) w
  = prompt lo hi sel inv (log (SerialPrintln (PStr p)) w).
Proof.
  reflexivity.
Qed.

(** X3.  A decimal number typed in range is what the prompt returns.  The
    digits may follow characters that cannot start a number (a line end left
    over, spaces, letters) and must be followed by a character that is
    neither a digit nor the driver's skip character; that character stays in
    the buffer.  The prompt and the selection are printed, nothing else. *)
Theorem prompts_return_typed_number (junk : string) (ds : list Z) (c : ascii)
  (rest : string) (w : World) :
  no_number_start junk = true ->
  ds <> [] -> Forall (fun d => 0 <= d <= 9) ds ->
  is_digit c = false -> Ascii.eqb c NO_IGNORE_CHAR = false ->
  serialIn w = (junk ++ digit_string ds ++ String c rest)%string ->
  (0 <= decimal_value ds <= 9 ->
   getUserBandwidthInput w =
   Returns (decimal_value ds)
     (mkWorld (regs w) (pins w) (totalPacketCount w) (isPaused w)
        (String c rest)
        (trace w ++
         [SerialPrintln (PStr "Enter bandwidth code (0-9):");
          SerialPrint (PStr "Selected bandwidth: ");
          SerialPrintln (PInt (decimal_value ds))]))) /\
  (6 <= decimal_value ds <= 12 ->
   getUserSpreadingFactorInput w =
   Returns (decimal_value ds)
     (mkWorld (regs w) (pins w) (totalPacketCount w) (isPaused w)
        (String c rest)
        (trace w ++
         [SerialPrintln (PStr "Enter spreading factor (6-12):");
          SerialPrint (PStr "Selected Spreading Factor: ");
          SerialPrintln (PInt (decimal_value ds))]))).
Proof.
  intros Hj Hne Hds Hc Hi Hs. split; intros Hr.
  - unfold getUserBandwidthInput. rewrite announce_then_prompt.
    rewrite (@prompt_accepts 0 9 _ _ junk ds c rest) by
      (try assumption; change (2 ^ 15) with 32768; lia).
    destruct w; cbn. rewrite <- app_assoc. reflexivity.
  - unfold getUserSpreadingFactorInput. rewrite announce_then_prompt.
    rewrite (@prompt_accepts 6 12 _ _ junk ds c rest) by
      (try assumption; change (2 ^ 15) with 32768; lia).
    destruct w; cbn. rewrite <- app_assoc. reflexivity.
Qed.

Lemma prompts_return_typed_number_witness :
  getUserBandwidthInput typed_5_then_12 =
  Returns 5
    (set_serialIn (nl ++ "12" ++ nl)
       (log (SerialPrintln (PInt 5))
          (log (SerialPrint (PStr "Selected bandwidth: "))
             (log (SerialPrintln (PStr "Enter bandwidth code (0-9):"))
                power_on)))).
Proof.
  apply (@prompts_return_typed_number EmptyString [5] newline ("12" ++ nl)
           typed_5_then_12); try reflexivity.
  - discriminate.
  - repeat constructor; lia.
  - unfold decimal_value; simpl; lia.
Defined.

(** X4.  A decimal number typed out of range (and below 2^15) costs one
    "Invalid" line: the prompt then goes on exactly as if it had been entered
    with the rest of the buffer. *)
Theorem prompts_turn_down_out_of_range_number (junk : string) (ds : list Z)
  (c : ascii) (rest : string) (w : World) :
  no_number_start junk = true ->
  ds <> [] -> Forall (fun d => 0 <= d <= 9) ds ->
  is_digit c = false -> Ascii.eqb c NO_IGNORE_CHAR = false ->
  serialIn w = (junk ++ digit_string ds ++ String c rest)%string ->
  decimal_value ds < 2 ^ 15 ->
  (~ 0 <= decimal_value ds <= 9 ->
   getUserBandwidthInput w =
   (Serial_println (PStr "Enter bandwidth code (0-9):") ;;
    Serial_println (PStr "Invalid bandwidth code. Please try again.") ;;
    prompt 0 9 "Selected bandwidth: "
      "Invalid bandwidth code. Please try again.")
     (set_serialIn (String c rest) w)) /\
  (~ 6 <= decimal_value ds <= 12 ->
   getUserSpreadingFactorInput w =
   (Serial_println (PStr "Enter spreading factor (6-12):") ;;
    Serial_println (PStr "Invalid Spreading Factor. Please try again.") ;;
    prompt 6 12 "Selected Spreading Factor: "
      "Invalid Spreading Factor. Please try again.")
     (set_serialIn (String c rest) w)).
Proof.
  intros Hj Hne Hds Hc Hi Hs Hlt. split; intros Hr.
  - unfold getUserBandwidthInput. rewrite announce_then_prompt.
    rewrite (@prompt_rejects 0 9 _ _ junk ds c rest) by assumption.
    destruct w; reflexivity.
  - unfold getUserSpreadingFactorInput. rewrite announce_then_prompt.
    rewrite (@prompt_rejects 6 12 _ _ junk ds c rest) by assumption.
    destruct w; reflexivity.
Qed.

Lemma prompts_turn_down_out_of_range_number_witness :
  getUserBandwidthInput typed_12_then_5 =
  Returns 5
    (set_serialIn nl
       (log (SerialPrintln (PInt 5))
          (log (SerialPrint (PStr "Selected bandwidth: "))
             (log (SerialPrintln
                     (PStr "Invalid bandwidth code. Please try again."))
                (log (SerialPrintln (PStr "Enter bandwidth code (0-9):"))
                   power_on))))).
Proof.
  rewrite (proj1 (@prompts_turn_down_out_of_range_number EmptyString [1; 2]
                    newline ("5" ++ nl) typed_12_then_5
                    eq_refl ltac:(discriminate)
                    ltac:(repeat constructor; lia) eq_refl eq_refl eq_refl
                    ltac:(unfold decimal_value; simpl; lia)))
    by (unfold decimal_value; simpl; lia).
  reflexivity.
Defined.

(** X5.  Input that holds no digit and no minus sign is read as the number
    zero and used up: the bandwidth prompt then selects code 0 without a
    word of complaint, and the spreading factor prompt turns the zero down
    and waits for ever on the empty buffer. *)
Theorem prompts_read_digitless_input_as_zero (w : World) :
  serialIn w <> EmptyString ->
  no_number_start (serialIn w) = true ->
  getUserBandwidthInput w =
  Returns 0
    (mkWorld (regs w) (pins w) (totalPacketCount w) (isPaused w) EmptyString
       (trace w ++
        [SerialPrintln (PStr "Enter bandwidth code (0-9):");
         SerialPrint (PStr "Selected bandwidth: ");
         SerialPrintln (PInt 0)])) /\
  getUserSpreadingFactorInput w =
  Hangs
    (mkWorld (regs w) (pins w) (totalPacketCount w) (isPaused w) EmptyString
       (trace w ++
        [SerialPrintln (PStr "Enter spreading factor (6-12):");
         SerialPrintln (PStr "Invalid Spreading Factor. Please try again.")])).
Proof.
  intros Hne Hno.
  unfold getUserBandwidthInput, getUserSpreadingFactorInput.
  rewrite !announce_then_prompt. unfold prompt.
  rewrite !prompt_loop_unfold.
  change (serialIn (log _ w)) with (serialIn w).
  destruct (String.eqb_spec (serialIn w) EmptyString) as [E|_]; [contradiction|].
  rewrite (parseInt_no_number _ Hno). cbn zeta.
  change (to_int 0) with 0. cbn [Z.leb Z.compare andb].
  destruct (String.length (serialIn w)) as [|n] eqn:L.
  { destruct (serialIn w); [contradiction | discriminate]. }
  rewrite prompt_loop_unfold. cbn [serialIn String.eqb].
  destruct w; cbn. rewrite <- !app_assoc. split; reflexivity.
Qed.

Lemma prompts_read_digitless_input_as_zero_witness :
  returned (getUserBandwidthInput typed_no_digits) = true /\
  returned (getUserSpreadingFactorInput typed_no_digits) = false.
Proof.
  destruct (@prompts_read_digitless_input_as_zero typed_no_digits) as (A & B);
    [discriminate | reflexivity |].
  rewrite A, B. split; reflexivity.
Defined.

(** ** The two fields, written again and read back *)

Lemma field_write_reads_back (v k : Z) :
  0 <= k < 16 ->
  Z.shiftr (to_u8 (Z.lor (to_u8 (Z.land (to_u8 v) 0x0F)) (Z.shiftl k 4))) 4 = k.
Proof.
  intros Hk. fold (low_nibble (to_u8 v)).
  pose proof (low_nibble_range (to_u8 v)) as Hu.
  generalize dependent (low_nibble (to_u8 v)). intros u Hu.
  split_cases k 16%nat; split_cases u 16%nat; reflexivity.
Qed.

Lemma field_write_twice (v k1 k2 : Z) :
  to_u8 (Z.lor
           (to_u8 (Z.land
                     (to_u8 (to_u8 (Z.lor (to_u8 (Z.land (to_u8 v) 0x0F))
                                          (Z.shiftl k1 4))))
                     0x0F))
           (Z.shiftl k2 4))
  = to_u8 (Z.lor (to_u8 (Z.land (to_u8 v) 0x0F)) (Z.shiftl k2 4)).
Proof.
  rewrite (to_u8_small (to_u8_range _)).
  assert (E : Z.land (to_u8 (Z.lor (to_u8 (Z.land (to_u8 v) 0x0F))
                                   (Z.shiftl k1 4))) 0x0F
              = Z.land (to_u8 v) 0x0F).
  { change (low_nibble (to_u8 (Z.lor (to_u8 (Z.land (to_u8 v) 0x0F))
                                     (Z.shiftl k1 4)))
            = low_nibble (to_u8 v)).
    rewrite field_write_keeps_low_nibble, low_nibble_to_u8. reflexivity. }
  rewrite E. reflexivity.
Qed.

(** X6.  Each field can be read back and written over.  After
    [setBandwidth c] the byte in register 0x1D shifted right by four is [c],
    after [setSpreadingFactor sf] the byte in register 0x1E shifted right by
    four is [sf] and its high nibble is [sf * 0x10]; the bytes stay below
    256. *)
Theorem config_fields_read_back (c sf : Z) (w : World) :
  0 <= c <= 9 -> 6 <= sf <= 12 ->
  (exists w1,
      setBandwidth c w = Returns tt w1 /\
      Z.shiftr (regs w1 RegModemConfig1) 4 = c /\
      0 <= regs w1 RegModemConfig1 < 256) /\
  (exists w2,
      setSpreadingFactor sf w = Returns tt w2 /\
      Z.shiftr (regs w2 RegModemConfig2) 4 = sf /\
      high_nibble (regs w2 RegModemConfig2) = sf * 0x10 /\
      0 <= regs w2 RegModemConfig2 < 256).
Proof.
  intros Hc Hsf. split.
  - eexists. split; [apply (setBandwidth_runs w Hc)|].
    cbn [regs]. rewrite upd_same.
    split; [apply field_write_reads_back; lia | apply to_u8_range].
  - eexists. split; [apply (setSpreadingFactor_runs w Hsf)|].
    cbn [regs]. rewrite upd_same.
    split; [apply field_write_reads_back; lia|].
    split; [apply field_write_sets_high_nibble; lia | apply to_u8_range].
Qed.

Lemma config_fields_read_back_witness :
  Z.shiftr (regs (final (setBandwidth 7 all_ones)) RegModemConfig1) 4 = 7 /\
  Z.shiftr (regs (final (setSpreadingFactor 12 all_ones)) RegModemConfig2) 4 = 12.
Proof.
  destruct (@config_fields_read_back 7 12 all_ones)
    as ((w1 & R1 & S1 & _) & (w2 & R2 & S2 & _)); [lia | lia |].
  rewrite R1, R2. split; [exact S1 | exact S2].
Defined.

(** X7.  The last write wins.  Setting the bandwidth to [c1] and then to
    [c2] leaves every register as setting it to [c2] alone does, and so for
    the spreading factor; in particular either setter applied twice with the
    same argument is as good as once. *)
Theorem config_writes_overwrite (c1 c2 sf1 sf2 : Z) (w : World) :
  0 <= c1 <= 9 -> 0 <= c2 <= 9 -> 6 <= sf1 <= 12 -> 6 <= sf2 <= 12 ->
  (exists w12 w2,
      (setBandwidth c1 ;; setBandwidth c2) w = Returns tt w12 /\
      setBandwidth c2 w = Returns tt w2 /\
      forall a, regs w12 a = regs w2 a) /\
  (exists w12 w2,
      (setSpreadingFactor sf1 ;; setSpreadingFactor sf2) w = Returns tt w12 /\
      setSpreadingFactor sf2 w = Returns tt w2 /\
      forall a, regs w12 a = regs w2 a).
Proof.
  intros Hc1 Hc2 Hs1 Hs2. split.
  - do 2 eexists. split.
    { unfold bind. rewrite (setBandwidth_runs w Hc1). apply (setBandwidth_runs _ Hc2). }
    split; [apply (setBandwidth_runs w Hc2)|].
    intros a. cbn [regs]. rewrite upd_same. unfold upd.
    destruct (Z.eqb a RegModemConfig1); [apply field_write_twice | reflexivity].
  - do 2 eexists. split.
    { unfold bind. rewrite (setSpreadingFactor_runs w Hs1).
      apply (setSpreadingFactor_runs _ Hs2). }
    split; [apply (setSpreadingFactor_runs w Hs2)|].
    intros a. cbn [regs]. rewrite upd_same. unfold upd.
    destruct (Z.eqb a RegModemConfig2); [apply field_write_twice | reflexivity].
Qed.

Lemma config_writes_overwrite_witness :
  regs (final ((setBandwidth 3 ;; setBandwidth 8) all_ones)) RegModemConfig1
  = regs (final (setBandwidth 8 all_ones)) RegModemConfig1 /\
  regs (final ((setSpreadingFactor 7 ;; setSpreadingFactor 7) all_ones))
    RegModemConfig2
  = regs (final (setSpreadingFactor 7 all_ones)) RegModemConfig2.
Proof.
  destruct (@config_writes_overwrite 3 8 7 7 all_ones)
    as ((wa & wb & Ra & Rb & Ea) & (wc & wd & Rc & Rd & Ec)); try lia.
  rewrite Ra, Rb, Rc, Rd. split; [apply Ea | apply Ec].
Defined.

(** ** Configuration from the console, and [setup] *)

Lemma console_only_repeat (p : Printable) (k : nat) (l : list Event) :
  forallb is_serial_out l = true ->
  forallb is_serial_out (repeat (SerialPrintln p) k ++ l) = true.
Proof.
  intros H. induction k as [|k IH]; simpl; [exact H | exact IH].
Qed.

Lemma spi_writes_app (l k : list Event) :
  spi_writes (l ++ k) = spi_writes l ++ spi_writes k.
Proof.
  unfold spi_writes. apply flat_map_app.
Qed.

Lemma trace_of_since (w w' : World) (l : list Event) :
  trace w' = trace w ++ l -> since w w' = l.
Proof.
  apply since_app.
Qed.

Lemma prompt_returns_extends (p : string) (lo hi : Z) (sel inv : string)
  (w w' : World) (x : Z) :
  (Serial_println (PStr p) ;; prompt lo hi sel inv) w = Returns x w' ->
  lo <= x <= hi /\
  same_device w w' /\
  exists l, trace w' = trace w ++ l /\ forallb is_serial_out l = true.
Proof.
  intros R. unfold bind, Serial_println, emit in R.
  pose proof (@prompt_loop_spec lo hi sel inv
                (S (String.length (serialIn w))) (log (SerialPrintln (PStr p)) w)
                (Nat.lt_succ_diag_r _)) as H.
  unfold prompt in R. change (serialIn (log (SerialPrintln (PStr p)) w))
    with (serialIn w) in R.
  rewrite R in H. destruct H as (Hx & Hd & _ & k & Ht).
  split; [exact Hx|]. split; [exact Hd|].
  exists (SerialPrintln (PStr p) :: repeat (SerialPrintln (PStr inv)) k ++
          [SerialPrint (PStr sel); SerialPrintln (PInt x)]).
  split.
  - rewrite Ht. simpl. rewrite <- app_assoc. reflexivity.
  - simpl. apply console_only_repeat. reflexivity.
Qed.

Lemma setBandwidth_spec (c : Z) (w : World) :
  0 <= c <= 9 ->
  exists w1 v1,
    setBandwidth c w = Returns tt w1 /\
    regs w1 RegModemConfig1 = v1 /\
    Z.shiftr v1 4 = c /\
    low_nibble v1 = low_nibble (regs w RegModemConfig1) /\
    (forall a, a <> RegModemConfig1 -> regs w1 a = regs w a) /\
    pins w1 = pins w /\
    totalPacketCount w1 = totalPacketCount w /\
    isPaused w1 = isPaused w /\
    serialIn w1 = serialIn w /\
    trace w1 = trace w ++
      [SpiRead RegModemConfig1 (to_u8 (regs w RegModemConfig1));
       SpiWrite RegModemConfig1 v1;
       SerialPrint (PStr "Bandwidth set to code: ");
       SerialPrintln (PInt c)].
Proof.
  intros Hc. do 2 eexists. split; [apply (setBandwidth_runs w Hc)|].
  cbn [regs pins totalPacketCount isPaused serialIn trace].
  split; [apply upd_same|].
  split; [apply field_write_reads_back; lia|].
  split; [apply field_write_keeps_low_nibble|].
  split; [intros a Ha; apply upd_other; exact Ha|].
  repeat split.
Qed.

Lemma setSpreadingFactor_spec (sf : Z) (w : World) :
  6 <= sf <= 12 ->
  exists w1 v1,
    setSpreadingFactor sf w = Returns tt w1 /\
    regs w1 RegModemConfig2 = v1 /\
    Z.shiftr v1 4 = sf /\
    low_nibble v1 = low_nibble (regs w RegModemConfig2) /\
    (forall a, a <> RegModemConfig2 -> regs w1 a = regs w a) /\
    pins w1 = pins w /\
    totalPacketCount w1 = totalPacketCount w /\
    isPaused w1 = isPaused w /\
    serialIn w1 = serialIn w /\
    trace w1 = trace w ++
      [SpiRead RegModemConfig2 (to_u8 (regs w RegModemConfig2));
       SpiWrite RegModemConfig2 v1;
       SerialPrint (PStr "Spreading Factor set to: ");
       SerialPrintln (PInt sf)].
Proof.
  intros Hs. do 2 eexists. split; [apply (setSpreadingFactor_runs w Hs)|].
  cbn [regs pins totalPacketCount isPaused serialIn trace].
  split; [apply upd_same|].
  split; [apply field_write_reads_back; lia|].
  split; [apply field_write_keeps_low_nibble|].
  split; [intros a Ha; apply upd_other; exact Ha|].
  repeat split.
Qed.

Lemma modem_config_registers_differ : RegModemConfig1 <> RegModemConfig2.
Proof.
  discriminate.
Qed.

Lemma configureParameters_prompted_spec (w w' : World) :
  configureParameters_prompted w = Returns tt w' ->
  exists bwCode sf,
    0 <= bwCode <= 9 /\ 6 <= sf <= 12 /\
    Z.shiftr (regs w' RegModemConfig1) 4 = bwCode /\
    Z.shiftr (regs w' RegModemConfig2) 4 = sf /\
    low_nibble (regs w' RegModemConfig1) = low_nibble (regs w RegModemConfig1) /\
    low_nibble (regs w' RegModemConfig2) = low_nibble (regs w RegModemConfig2) /\
    (forall a, a <> RegModemConfig1 -> a <> RegModemConfig2 ->
               regs w' a = regs w a) /\
    spi_writes (since w w') =
      [(RegModemConfig1, regs w' RegModemConfig1);
       (RegModemConfig2, regs w' RegModemConfig2)] /\
    exists l,
      trace w' = trace w ++ l /\
      send_attempts l = 0%nat /\
      pins w' = pins w /\
      totalPacketCount w' = totalPacketCount w /\
      isPaused w' = isPaused w.
Proof.
  unfold configureParameters_prompted. unfold bind at 1.
  destruct (getUserBandwidthInput w) as [bw wa|wa] eqn:Ra; [|discriminate].
  destruct (prompt_returns_extends _ _ _ _ _ _ Ra)
    as (Hbw & (Rga & Pa & Ca & Ia) & la & Ta & La).
  destruct (setBandwidth_spec wa Hbw)
    as (w1 & v1 & R1 & V1 & S1 & L1 & O1 & P1 & C1 & I1 & _ & T1).
  unfold bind at 1. rewrite R1.
  unfold bind at 1.
  destruct (getUserSpreadingFactorInput w1) as [sf wb|wb] eqn:Rb; [|discriminate].
  destruct (prompt_returns_extends _ _ _ _ _ _ Rb)
    as (Hsf & (Rgb & Pb & Cb & Ib) & lb & Tb & Lb).
  destruct (setSpreadingFactor_spec wb Hsf)
    as (w2 & v2 & R2 & V2 & S2 & L2 & O2 & P2 & C2 & I2 & _ & T2).
  rewrite R2. intros E. assert (Ew : w2 = w') by congruence. subst w'. clear E.
  pose proof modem_config_registers_differ as D.
  assert (E1 : regs w2 RegModemConfig1 = v1).
  { rewrite (O2 _ D), Rgb. exact V1. }
  exists bw, sf. split; [exact Hbw|]. split; [exact Hsf|].
  rewrite E1, V2.
  split; [exact S1|]. split; [exact S2|].
  split; [rewrite L1, Rga; reflexivity|].
  split; [rewrite L2, Rgb, (O1 _ (not_eq_sym D)), Rga; reflexivity|].
  split.
  { intros a H1 H2. rewrite (O2 _ H2), Rgb, (O1 _ H1), Rga. reflexivity. }
  assert (T : since w w2 =
               la ++ [SpiRead RegModemConfig1 (to_u8 (regs wa RegModemConfig1));
                      SpiWrite RegModemConfig1 v1;
                      SerialPrint (PStr "Bandwidth set to code: ");
                      SerialPrintln (PInt bw)]
               ++ lb ++
               [SpiRead RegModemConfig2 (to_u8 (regs wb RegModemConfig2));
                SpiWrite RegModemConfig2 v2;
                SerialPrint (PStr "Spreading Factor set to: ");
                SerialPrintln (PInt sf)]).
  { apply trace_of_since. rewrite T2, Tb, T1, Ta. rewrite <- !app_assoc.
    reflexivity. }
  split.
  { rewrite T, !spi_writes_app.
    destruct (console_only_no_send la La) as (_ & -> & _).
    destruct (console_only_no_send lb Lb) as (_ & -> & _).
    reflexivity. }
  eexists. split.
  { rewrite T2, Tb, T1, Ta. rewrite <- !app_assoc. reflexivity. }
  split.
  { rewrite !send_attempts_app.
    destruct (console_only_no_send la La) as (-> & _).
    destruct (console_only_no_send lb Lb) as (-> & _).
    reflexivity. }
  repeat split; congruence.
Qed.



(** X8.  Whenever the configuration from the console comes back, both
    setters have run with arguments in range: register 0x1D holds a code of
    0..9 and register 0x1E a spreading factor of 6..12 in their high
    nibbles, both low nibbles and every other register are as before, and
    the bus has seen exactly two writes, one to each register, first 0x1D.
    Pins, counter and pause flag are untouched. *)
Theorem configureParameters_prompted_writes_valid_fields (w w' : World) :
  configureParameters_prompted w = Returns tt w' ->
  exists bwCode sf,
    0 <= bwCode <= 9 /\ 6 <= sf <= 12 /\
    Z.shiftr (regs w' RegModemConfig1) 4 = bwCode /\
    Z.shiftr (regs w' RegModemConfig2) 4 = sf /\
    low_nibble (regs w' RegModemConfig1) = low_nibble (regs w RegModemConfig1) /\
    low_nibble (regs w' RegModemConfig2) = low_nibble (regs w RegModemConfig2) /\
    (forall a, a <> RegModemConfig1 -> a <> RegModemConfig2 ->
               regs w' a = regs w a) /\
    spi_writes (since w w') =
      [(RegModemConfig1, regs w' RegModemConfig1);
       (RegModemConfig2, regs w' RegModemConfig2)] /\
    send_attempts (since w w') = 0%nat /\
    pins w' = pins w /\
    totalPacketCount w' = totalPacketCount w /\
    isPaused w' = isPaused w.
Proof.
  intros R.
  destruct (@configureParameters_prompted_spec w w' R)
    as (bw & sf & Hb & Hs & Eb & Es & L1 & L2 & O & W & l & T & S & P & C & I).
  exists bw, sf.
  repeat (split; [assumption|]).
  rewrite (trace_of_since w w' l T).
  repeat (split; [assumption|]). assumption.
Qed.

Lemma configureParameters_prompted_writes_valid_fields_witness :
  0 <= Z.shiftr (regs (final (configureParameters_prompted typed_5_then_12))
                   RegModemConfig1) 4 <= 9 /\
  6 <= Z.shiftr (regs (final (configureParameters_prompted typed_5_then_12))
                   RegModemConfig2) 4 <= 12.
Proof.
  destruct (@configureParameters_prompted_writes_valid_fields typed_5_then_12
              (final (configureParameters_prompted typed_5_then_12)))
    as (bw & sf & Hb & Hs & Eb & Es & _); [vm_compute; reflexivity|].
  rewrite Eb, Es. split; assumption.
Defined.

Lemma low_nibble_keeps_bit_2 (a b : Z) :
  low_nibble a = low_nibble b -> Z.testbit a 2 = Z.testbit b 2.
Proof.
  intros E. apply (f_equal (fun x => Z.testbit x 2)) in E.
  rewrite !testbit_low_nibble in E by lia.
  rewrite !andb_true_r in E. exact E.
Qed.

Lemma initializeSystem_init_ok eff (w : World) :
  exists w1 l,
    initializeSystem eff true w = Returns tt w1 /\
    trace w1 = trace w ++ l /\
    send_attempts l = 0%nat /\
    regs w1 RegPreambleMsb = 0 /\
    regs w1 RegPreambleLsb = 8 /\
    Z.testbit (regs w1 RegModemConfig2) 2 = true /\
    outputs_off w1 /\
    totalPacketCount w1 = totalPacketCount w /\
    isPaused w1 = isPaused w /\
    serialIn w1 = serialIn w.
Proof.
  destruct w as [r p c b s t].
  unfold initializeSystem, initializeRF95Module, enableCRC, initializeLED,
    initializeSwitch.
  run_sketch.
  do 2 eexists. split; [reflexivity|].
  cbn [regs pins totalPacketCount isPaused serialIn trace].
  split; [reflexivity|]. split; [reflexivity|].
  split; [rewrite upd_other by discriminate; rewrite upd_other by discriminate;
          apply upd_same|].
  split; [rewrite upd_other by discriminate; apply upd_same|].
  split.
  { rewrite upd_same, (to_u8_small (to_u8_range _)), testbit_crc_on by lia.
    apply orb_true_r. }
  split; [split; reflexivity|].
  repeat split.
Qed.

Lemma initializeSystem_init_failed eff (w : World) :
  exists wh, initializeSystem eff false w = Hangs wh.
Proof.
  destruct (initializeRF95Module_init_failed eff w) as (wh & R & _).
  exists wh. unfold initializeSystem, bind. rewrite R. reflexivity.
Qed.

(** X9.  [setup] comes back only if [rf95.init] answered true, and then it
    hands over a configured radio: preamble registers 0x20 and 0x21 hold
    0x00 and 0x08, the CRC bit of register 0x1E is set, the high nibbles of
    registers 0x1D and 0x1E hold a bandwidth code of 0..9 and a spreading
    factor of 6..12, load switch and LED are off, counter and pause flag are
    as they were, and no send has been attempted.  This holds whatever the
    driver calls do to the registers. *)
Theorem setup_prompted_hands_over_configured_radio eff (initOk : bool)
  (w w' : World) :
  setup_prompted eff initOk w = Returns tt w' ->
  initOk = true /\
  regs w' RegPreambleMsb = 0x00 /\
  regs w' RegPreambleLsb = 0x08 /\
  Z.testbit (regs w' RegModemConfig2) 2 = true /\
  0 <= Z.shiftr (regs w' RegModemConfig1) 4 <= 9 /\
  6 <= Z.shiftr (regs w' RegModemConfig2) 4 <= 12 /\
  outputs_off w' /\
  totalPacketCount w' = totalPacketCount w /\
  isPaused w' = isPaused w /\
  send_attempts (since w w') = 0%nat.
Proof.
  unfold setup_prompted, Serial_begin, emit. unfold bind at 1. unfold bind at 1.
  destruct initOk.
  2:{ destruct (initializeSystem_init_failed eff (log (SerialBegin 9600) w))
        as (wh & R).
      rewrite R. discriminate. }
  destruct (initializeSystem_init_ok eff (log (SerialBegin 9600) w))
    as (w1 & l & R & T & S & Pm & Pl & Crc & (Osw & Oled) & C & I & _).
  rewrite R. intros Rc.
  destruct (@configureParameters_prompted_spec _ _ Rc)
    as (bw & sf & Hb & Hs & Eb & Es & _ & L2 & O & _ & lc & Tc & Sc & P & C' & I').
  split; [reflexivity|].
  split; [rewrite O by discriminate; exact Pm|].
  split; [rewrite O by discriminate; exact Pl|].
  split; [rewrite (low_nibble_keeps_bit_2 _ _ L2); exact Crc|].
  split; [rewrite Eb; exact Hb|]. split; [rewrite Es; exact Hs|].
  split; [unfold outputs_off; rewrite P; split; assumption|].
  split; [rewrite C', C; reflexivity|].
  split; [rewrite I', I; reflexivity|].
  rewrite (trace_of_since w w' (SerialBegin 9600 :: l ++ lc)).
  - change (SerialBegin 9600 :: l ++ lc) with ([SerialBegin 9600] ++ l ++ lc).
    rewrite !send_attempts_app, S, Sc. reflexivity.
  - rewrite Tc, T. cbn [log trace]. rewrite <- !app_assoc. reflexivity.
Qed.

Lemma setup_prompted_hands_over_configured_radio_witness :
  regs (final (setup_prompted no_effect true typed_5_then_12)) RegPreambleLsb
    = 0x08 /\
  Z.testbit (regs (final (setup_prompted no_effect true typed_5_then_12))
               RegModemConfig2) 2 = true /\
  outputs_off (final (setup_prompted no_effect true typed_5_then_12)).
Proof.
  destruct (@setup_prompted_hands_over_configured_radio no_effect true
              typed_5_then_12
              (final (setup_prompted no_effect true typed_5_then_12)))
    as (_ & _ & Pl & Crc & _ & _ & Off & _); [vm_compute; reflexivity|].
  split; [exact Pl|]. split; [exact Crc | exact Off].
Defined.

Lemma getUser_typed (p : string) (lo hi : Z) (sel inv junk : string)
  (ds : list Z) (c : ascii) (rest : string) (w : World) :
  no_number_start junk = true ->
  ds <> [] -> Forall (fun d => 0 <= d <= 9) ds ->
  is_digit c = false -> Ascii.eqb c NO_IGNORE_CHAR = false ->
  serialIn w = (junk ++ digit_string ds ++ String c rest)%string ->
  lo <= decimal_value ds <= hi -> hi < 2 ^ 15 ->
  exists w1,
    (Serial_println (PStr p) ;; prompt lo hi sel inv) w
      = Returns (decimal_value ds) w1 /\
    same_device w w1 /\
    serialIn w1 = String c rest.
Proof.
  intros Hj Hne Hds Hc Hi Hs Hr Hhi.
  rewrite announce_then_prompt.
  rewrite (@prompt_accepts lo hi sel inv junk ds c rest) by assumption.
  eexists. split; [reflexivity|]. split; [repeat split | reflexivity].
Qed.

(** X10.  Two numbers typed in range configure the radio.  With a bandwidth
    code and then a spreading factor waiting in the receive buffer as decimal
    numbers, each ended by a character that cannot belong to a number,
    [setup] (with [rf95.init] answering true) comes back, the high nibbles of
    registers 0x1D and 0x1E hold exactly the two numbers, the CRC bit is
    set, and the buffer is left at the character that ended the second
    number. *)
Theorem setup_prompted_configures_typed_numbers eff (junk1 : string)
  (bs : list Z) (c1 : ascii) (junk2 : string) (ss : list Z) (c2 : ascii)
  (rest : string) (w : World) :
  no_number_start junk1 = true ->
  bs <> [] -> Forall (fun d => 0 <= d <= 9) bs ->
  is_digit c1 = false -> is_minus c1 = false ->
  Ascii.eqb c1 NO_IGNORE_CHAR = false ->
  no_number_start junk2 = true ->
  ss <> [] -> Forall (fun d => 0 <= d <= 9) ss ->
  is_digit c2 = false -> Ascii.eqb c2 NO_IGNORE_CHAR = false ->
  serialIn w =
    (junk1 ++ digit_string bs ++
     String c1 (junk2 ++ digit_string ss ++ String c2 rest))%string ->
  0 <= decimal_value bs <= 9 -> 6 <= decimal_value ss <= 12 ->
  exists w',
    setup_prompted eff true w = Returns tt w' /\
    Z.shiftr (regs w' RegModemConfig1) 4 = decimal_value bs /\
    Z.shiftr (regs w' RegModemConfig2) 4 = decimal_value ss /\
    Z.testbit (regs w' RegModemConfig2) 2 = true /\
    serialIn w' = String c2 rest.
Proof.
  intros Hj1 Hb0 Hb Hd1 Hm1 Hi1 Hj2 Hs0 Hs Hd2 Hi2 Hin Hbr Hsr.
  unfold setup_prompted, Serial_begin, emit. unfold bind at 1. unfold bind at 1.
  destruct (initializeSystem_init_ok eff (log (SerialBegin 9600) w))
    as (w1 & l & R & _ & _ & _ & _ & Crc & _ & _ & _ & S1).
  rewrite R. change (serialIn (log (SerialBegin 9600) w)) with (serialIn w) in S1.
  unfold configureParameters_prompted. unfold bind at 1.
  destruct (@getUser_typed "Enter bandwidth code (0-9):" 0 9
              "Selected bandwidth: " "Invalid bandwidth code. Please try again."
              junk1 bs c1
              (junk2 ++ digit_string ss ++ String c2 rest)%string w1)
    as (wa & Ra & (Rga & _) & Sa);
    try assumption; [rewrite S1; exact Hin | change (2 ^ 15) with 32768; lia |].
  unfold getUserBandwidthInput. rewrite Ra.
  destruct (setBandwidth_spec wa Hbr)
    as (wb & v1 & Rb & V1 & Sh1 & _ & O1 & _ & _ & _ & Sb & _).
  unfold bind at 1. rewrite Rb. unfold bind at 1.
  destruct (@getUser_typed "Enter spreading factor (6-12):" 6 12
              "Selected Spreading Factor: "
              "Invalid Spreading Factor. Please try again."
              (String c1 junk2) ss c2 rest wb)
    as (wc & Rc & (Rgc & _) & Sc); try assumption.
  { simpl. rewrite Hm1, Hd1, Hj2. reflexivity. }
  { rewrite Sb, Sa. reflexivity. }
  { change (2 ^ 15) with 32768; lia. }
  unfold getUserSpreadingFactorInput. rewrite Rc.
  destruct (setSpreadingFactor_spec wc Hsr)
    as (wd & v2 & Rd & V2 & Sh2 & L2 & O2 & _ & _ & _ & Sd & _).
  rewrite Rd. exists wd. split; [reflexivity|].
  pose proof modem_config_registers_differ as D.
  split; [rewrite (O2 _ D), Rgc, V1; exact Sh1|].
  split; [rewrite V2; exact Sh2|].
  split.
  - rewrite V2.
    rewrite (low_nibble_keeps_bit_2 _ _ L2), Rgc, (O1 _ (not_eq_sym D)), Rga.
    exact Crc.
  - rewrite Sd. exact Sc.
Qed.

Lemma setup_prompted_configures_typed_numbers_witness :
  Z.shiftr (regs (final (setup_prompted no_effect true typed_5_then_12))
              RegModemConfig1) 4 = 5 /\
  Z.shiftr (regs (final (setup_prompted no_effect true typed_5_then_12))
              RegModemConfig2) 4 = 12.
Proof.
  destruct (@setup_prompted_configures_typed_numbers no_effect
              EmptyString [5] newline EmptyString [1; 2] newline EmptyString
              typed_5_then_12)
    as (w' & R & B & S & _); try reflexivity; try discriminate.
  - repeat constructor; lia.
  - repeat constructor; lia.
  - unfold decimal_value; simpl; lia.
  - unfold decimal_value; simpl; lia.
  - rewrite R. split; [exact B | exact S].
Defined.

(** ** Passes of [loop] *)

Lemma transmit_cycle_pins eff (ok : bool) (w : World) :
  exists wz,
    (prepareTransmission eff ;; sendMessage eff ok ;; waitForNextCycle eff) w
      = Returns tt wz /\
    trace wz = trace w ++ prepare_events ++
               send_events ok (totalPacketCount wz) ++ sleep_events /\
    totalPacketCount wz =
      (if ok then to_ulong (totalPacketCount w + 1) else totalPacketCount w) /\
    outputs_off wz /\
    isPaused wz = isPaused w /\
    serialIn wz = serialIn w.
Proof.
  unfold bind. rewrite prepareTransmission_runs.
  destruct ok.
  - rewrite sendMessage_runs_ok, waitForNextCycle_runs.
    eexists. split; [reflexivity|].
    cbn [trace totalPacketCount isPaused serialIn].
    split; [rewrite <- !app_assoc; reflexivity|].
    split; [reflexivity|]. split; [split; reflexivity|]. split; reflexivity.
  - rewrite sendMessage_runs_failed, waitForNextCycle_runs.
    eexists. split; [reflexivity|].
    cbn [trace totalPacketCount isPaused serialIn].
    split; [rewrite <- !app_assoc; reflexivity|].
    split; [reflexivity|]. split; [split; reflexivity|]. split; reflexivity.
Qed.

(** One pass of [loop], by what the pause flag is when it ends. *)
Lemma loop_pass eff (ok : bool) (w : World) :
  exists w' lc,
    loop eff ok w = Returns tt w' /\
    command_events (serialIn w) lc /\
    serialIn w' = snd (split_until newline (serialIn w)) /\
    ((isPaused w' = true /\
      trace w' = trace w ++ lc /\
      regs w' = regs w /\
      pins w' = pins w /\
      totalPacketCount w' = totalPacketCount w) \/
     (isPaused w' = false /\
      trace w' = trace w ++ lc ++ prepare_events ++
                 send_events ok (totalPacketCount w') ++ sleep_events /\
      outputs_off w' /\
      totalPacketCount w' =
        (if ok then to_ulong (totalPacketCount w + 1)
         else totalPacketCount w))).
Proof.
  destruct (checkForStopOrGo_runs w)
    as (w1 & lc & R & T & Rep & Rg & Pn & C & S & _).
  destruct (isPaused w1) eqn:P.
  - exists w1, lc. split; [apply (loop_when_paused eff ok w R P)|].
    split; [exact Rep|]. split; [exact S|]. left. repeat split; assumption.
  - destruct (transmit_cycle_pins eff ok w1) as (wz & Rz & Tz & Cz & Oz & Iz & Sz).
    exists wz, lc. split; [rewrite (loop_when_running eff ok w R P); exact Rz|].
    split; [exact Rep|]. split; [rewrite Sz; exact S|]. right.
    split; [rewrite Iz; exact P|].
    split; [rewrite Tz, T, <- !app_assoc; reflexivity|].
    split; [exact Oz|]. rewrite Cz, C. reflexivity.
Qed.

Lemma delayed_ms_app (l k : list Event) :
  delayed_ms (l ++ k) = delayed_ms l + delayed_ms k.
Proof.
  induction l as [|e l IH]; simpl; [reflexivity|].
  destruct e; rewrite ?IH; try reflexivity. lia.
Qed.

Lemma slept_ms_app (l k : list Event) :
  slept_ms (l ++ k) = slept_ms l + slept_ms k.
Proof.
  unfold slept_ms, power_down_steps.
  induction l as [|e l IH]; simpl; [reflexivity|].
  destruct e; simpl; rewrite ?IH; try reflexivity.
  destruct (period_ms p); lia.
Qed.

Lemma writes_to_app (pin : Z) (l k : list Event) :
  writes_to pin (l ++ k) = writes_to pin l ++ writes_to pin k.
Proof.
  unfold writes_to. apply flat_map_app.
Qed.

Lemma printed_lines_app (text : string) (l k : list Event) :
  printed_lines text (l ++ k)
  = (printed_lines text l + printed_lines text k)%nat.
Proof.
  unfold printed_lines. rewrite filter_app, length_app. reflexivity.
Qed.

Lemma line_wait_ms_app (l k : list Event) :
  line_wait_ms (l ++ k) = line_wait_ms l + line_wait_ms k.
Proof.
  induction l as [|e l IH]; simpl; [reflexivity|].
  destruct e; rewrite ?IH; try reflexivity. lia.
Qed.

Lemma command_events_quiet (buffer : string) (lc : list Event) :
  command_events buffer lc ->
  delayed_ms lc = 0 /\ slept_ms lc = 0 /\
  writes_to SWITCH_PIN lc = [] /\ writes_to LED_PIN lc = [] /\
  send_attempts lc = 0%nat /\
  printed_lines "Message sent." lc = 0%nat /\
  printed_lines "Message failed to send." lc = 0%nat /\
  line_wait_ms lc = line_wait_ms (line_wait buffer).
Proof.
  intros (reply & Rep & ->).
  destruct (line_wait_is_quiet buffer)
    as (_ & D & S & Wsw & Wled & A & _ & _ & Ps & Pf).
  rewrite delayed_ms_app, slept_ms_app, !writes_to_app, send_attempts_app,
    !printed_lines_app, line_wait_ms_app, D, S, Wsw, Wled, A, Ps, Pf.
  destruct Rep as [->|[->| ->]]; cbn; rewrite ?Z.add_0_r; repeat split.
Qed.

(** The time-out is waited when the buffer holds characters and no
    newline. *)
Lemma line_wait_ms_line_wait (buffer : string) :
  line_wait_ms (line_wait buffer) =
  if String.eqb buffer EmptyString || contains_char newline buffer then 0
  else SERIAL_TIMEOUT.
Proof.
  unfold line_wait.
  destruct (String.eqb buffer EmptyString || contains_char newline buffer);
    reflexivity.
Qed.

(** X11.  What a pass of [loop] costs and drives.  A pass that ends with the
    pause flag clear has spent 1000 ms in [delay] before the send, 500 ms
    more on the LED after a successful one, and 3000 ms asleep; it has
    driven the load switch high once and then low, and the LED low at the
    end (high and low before that when the send succeeded); its events are
    those of the command check, the preparation, the send and the sleep
    phase, in that order.  A pass that ends with the flag set has called
    neither [delay] nor [powerDown] and has driven no pin.  Either pass has
    waited for the end of a line only when the buffer held characters and no
    newline, and then for the time-out of the Serial port. *)
Theorem loop_pass_cost eff (ok : bool) (w w' : World) :
  loop eff ok w = Returns tt w' ->
  (isPaused w' = false ->
   delayed_ms (since w w') = 1000 + (if ok then 500 else 0) /\
   slept_ms (since w w') = 3000 /\
   writes_to SWITCH_PIN (since w w') = [HIGH; LOW] /\
   writes_to LED_PIN (since w w') = (if ok then [HIGH; LOW; LOW] else [LOW]) /\
   exists lc,
     command_events (serialIn w) lc /\
     since w w' = lc ++ prepare_events ++
                  send_events ok (totalPacketCount w') ++ sleep_events) /\
  (isPaused w' = true ->
   delayed_ms (since w w') = 0 /\
   slept_ms (since w w') = 0 /\
   writes_to SWITCH_PIN (since w w') = [] /\
   writes_to LED_PIN (since w w') = [] /\
   pins w' = pins w /\
   command_events (serialIn w) (since w w')) /\
  line_wait_ms (since w w') =
    (if String.eqb (serialIn w) EmptyString
        || contains_char newline (serialIn w)
     then 0 else SERIAL_TIMEOUT).
Proof.
  intros R.
  destruct (loop_pass eff ok w) as (w1 & lc & R1 & Rep & _ & Cases).
  rewrite R in R1. injection R1 as <-.
  destruct (command_events_quiet Rep) as (D & S & Wsw & Wled & _ & _ & _ & Lw).
  rewrite line_wait_ms_line_wait in Lw.
  destruct Cases as [(P & T & _ & Pn & _)|(P & T & _ & _)].
  - rewrite (trace_of_since w w' lc T).
    split; [rewrite P; discriminate|]. split; [|exact Lw]. intros _.
    repeat split; assumption.
  - rewrite (trace_of_since w w' _ T).
    split; [|split; [rewrite P; discriminate|]].
    + intros _.
      rewrite !delayed_ms_app, !slept_ms_app, !writes_to_app, D, S, Wsw, Wled.
      split; [destruct ok; reflexivity|].
      split; [destruct ok; reflexivity|].
      split; [destruct ok; reflexivity|].
      split; [destruct ok; reflexivity|].
      exists lc. split; [exact Rep | reflexivity].
    + rewrite !line_wait_ms_app, Lw. destruct ok; cbn; lia.
Qed.

Lemma loop_pass_cost_witness :
  delayed_ms (since power_on (final (loop no_effect true power_on))) = 1500 /\
  pins (final (loop no_effect true paused_with_stop)) = pins paused_with_stop.
Proof.
  destruct (@loop_pass_cost no_effect true power_on
              (final (loop no_effect true power_on)))
    as (Run & _); [vm_compute; reflexivity|].
  destruct Run as (D & _); [vm_compute; reflexivity|].
  destruct (@loop_pass_cost no_effect true paused_with_stop
              (final (loop no_effect true paused_with_stop)))
    as (_ & Paused & _); [vm_compute; reflexivity|].
  destruct Paused as (_ & _ & _ & _ & P & _); [vm_compute; reflexivity|].
  split; [exact D | exact P].
Defined.

Lemma to_ulong_small (x : Z) : 0 <= x < ULONG_MODULUS -> to_ulong x = x.
Proof.
  intros H. unfold to_ulong. apply Z.mod_small. exact H.
Qed.

Lemma to_ulong_range (x : Z) : 0 <= to_ulong x < ULONG_MODULUS.
Proof.
  unfold to_ulong, ULONG_MODULUS. apply Z.mod_pos_bound. reflexivity.
Qed.

Lemma to_ulong_add (c a b : Z) :
  to_ulong (to_ulong (c + a) + b) = to_ulong (c + (a + b)).
Proof.
  unfold to_ulong, ULONG_MODULUS. rewrite Zplus_mod_idemp_l. f_equal. lia.
Qed.

Lemma passes_spec eff (answers : list bool) (w : World) :
  0 <= totalPacketCount w < ULONG_MODULUS ->
  exists w' l,
    passes eff answers w = Returns tt w' /\
    trace w' = trace w ++ l /\
    totalPacketCount w' =
      to_ulong (totalPacketCount w
                + Z.of_nat (printed_lines "Message sent." l)) /\
    send_attempts l =
      (printed_lines "Message sent." l
       + printed_lines "Message failed to send." l)%nat /\
    (send_attempts l <= List.length answers)%nat /\
    (outputs_off w -> outputs_off w').
Proof.
  revert w. induction answers as [|ok answers IH]; intros w Hwf.
  - exists w, []. split; [reflexivity|]. rewrite app_nil_r. simpl.
    rewrite Z.add_0_r, to_ulong_small by exact Hwf.
    repeat (split; [first [reflexivity | simpl; lia]|]). auto.
  - destruct (loop_pass eff ok w) as (w1 & lc & R1 & Rep & _ & Cases).
    destruct (command_events_quiet Rep) as (_ & _ & _ & _ & A0 & S0 & F0 & _).
    assert (Step : exists l1,
               trace w1 = trace w ++ l1 /\
               totalPacketCount w1 =
                 to_ulong (totalPacketCount w
                           + Z.of_nat (printed_lines "Message sent." l1)) /\
               send_attempts l1 =
                 (printed_lines "Message sent." l1
                  + printed_lines "Message failed to send." l1)%nat /\
               (send_attempts l1 <= 1)%nat /\
               (outputs_off w -> outputs_off w1)).
    { destruct Cases as [(_ & T & _ & Pn & C)|(_ & T & Off & C)].
      - exists lc. split; [exact T|]. rewrite S0, F0, A0, Z.add_0_r, C.
        split; [symmetry; apply to_ulong_small; exact Hwf|].
        split; [reflexivity|]. split; [lia|].
        unfold outputs_off. rewrite Pn. auto.
      - eexists. split; [exact T|].
        rewrite !printed_lines_app, !send_attempts_app, S0, F0, A0.
        destruct ok; cbn.
        + split; [exact C|]. split; [reflexivity|]. split; [lia | auto].
        + rewrite Z.add_0_r.
          split; [rewrite C; symmetry; apply to_ulong_small; exact Hwf|].
          split; [reflexivity|]. split; [lia | auto]. }
    destruct Step as (l1 & T1 & C1 & A1 & B1 & O1).
    assert (Hwf1 : 0 <= totalPacketCount w1 < ULONG_MODULUS)
      by (rewrite C1; apply to_ulong_range).
    destruct (IH w1 Hwf1) as (w' & l & R & T & C & A & B & O).
    exists w', (l1 ++ l). split.
    { cbn [passes]. unfold bind. rewrite R1. exact R. }
    split; [rewrite T, T1, <- app_assoc; reflexivity|].
    rewrite !printed_lines_app, !send_attempts_app.
    split.
    { rewrite C, C1, to_ulong_add, Nat2Z.inj_add. reflexivity. }
    split; [rewrite A, A1; lia|].
    split; [simpl; lia | auto].
Qed.

(** X12.  Over any number of passes of [loop], whatever is typed and
    whatever the sends answer, the packet counter is the number of "Message
    sent." lines added to what it was, modulo 2^32; every send attempt is
    reported on the console as sent or as failed; and there is at most one
    attempt a pass. *)
Theorem packet_counter_counts_sent_messages eff (answers : list bool)
  (w : World) :
  0 <= totalPacketCount w < ULONG_MODULUS ->
  exists w',
    passes eff answers w = Returns tt w' /\
    totalPacketCount w' =
      to_ulong (totalPacketCount w
                + Z.of_nat (printed_lines "Message sent." (since w w'))) /\
    send_attempts (since w w') =
      (printed_lines "Message sent." (since w w')
       + printed_lines "Message failed to send." (since w w'))%nat /\
    (send_attempts (since w w') <= List.length answers)%nat.
Proof.
  intros Hwf.
  destruct (passes_spec eff answers w Hwf) as (w' & l & R & T & C & A & B & _).
  exists w'. rewrite (trace_of_since w w' l T).
  split; [exact R|]. split; [exact C|]. split; [exact A | exact B].
Qed.

Lemma packet_counter_counts_sent_messages_witness :
  totalPacketCount (final (passes no_effect [true; false; true] power_on)) =
  to_ulong
    (totalPacketCount power_on
     + Z.of_nat
         (printed_lines "Message sent."
            (since power_on
               (final (passes no_effect [true; false; true] power_on))))).
Proof.
  destruct (@packet_counter_counts_sent_messages no_effect [true; false; true]
              power_on) as (w' & R & C & _); [vm_compute; split; congruence|].
  rewrite R. exact C.
Defined.

(** X13.  Load switch and LED are off between passes: if both outputs are
    low before a run of passes of [loop], they are low after it, for any
    input and any answers of the sends; and a pass that transmitted leaves
    them low whatever they were. *)
Theorem passes_keep_outputs_off eff (answers : list bool) (w : World) :
  outputs_off w ->
  (exists w', passes eff answers w = Returns tt w' /\ outputs_off w') /\
  (forall ok w0 w1,
      loop eff ok w0 = Returns tt w1 -> isPaused w1 = false -> outputs_off w1).
Proof.
  intros Off. split.
  - revert w Off. induction answers as [|ok answers IH]; intros w Off.
    + exists w. split; [reflexivity | exact Off].
    + destruct (loop_pass eff ok w) as (w1 & lc & R1 & _ & _ & Cases).
      assert (Off1 : outputs_off w1).
      { destruct Cases as [(_ & _ & _ & Pn & _)|(_ & _ & O & _)]; [|exact O].
        unfold outputs_off. rewrite Pn. exact Off. }
      destruct (IH w1 Off1) as (w' & R & O).
      exists w'. split; [|exact O].
      cbn [passes]. unfold bind. rewrite R1. exact R.
  - intros ok w0 w1 R P.
    destruct (loop_pass eff ok w0) as (w1' & lc & R1 & _ & _ & Cases).
    rewrite R in R1. injection R1 as <-.
    destruct Cases as [(P' & _)|(_ & _ & O & _)]; [congruence | exact O].
Qed.

Lemma passes_keep_outputs_off_witness :
  outputs_off (final (passes no_effect [true; false] three_commands)).
Proof.
  destruct (@passes_keep_outputs_off no_effect [true; false] three_commands)
    as ((w' & R & O) & _); [split; reflexivity|].
  rewrite R. exact O.
Defined.

(** ** Staying paused *)








(** ** [displayMessage] on any message *)

Lemma displayMessage_loop (msg pre suf : list Z) (size : Z) (w : World) :
  msg = pre ++ suf -> size = Z.of_nat (List.length msg) ->
  for_loop (List.length suf) (Z.of_nat (List.length pre))
    (fun i =>
       Serial_print (PStr "0x") ;;
       (if nth (Z.to_nat i) msg 0 <? 0x10
        then Serial_print (PStr "0") else ret tt) ;;
       Serial_print (PHex (nth (Z.to_nat i) msg 0)) ;;
       (if i <? size - 1 then Serial_print (PStr ", ") else ret tt)) w
  = Returns tt
      (mkWorld (regs w) (pins w) (totalPacketCount w) (isPaused w) (serialIn w)
         (trace w ++ bytes_display suf)).
Proof.
  intros Hm Hs.
  match goal with |- for_loop _ _ ?f _ = _ => set (body := f) end.
  revert pre w Hm.
  induction suf as [|b suf IH]; intros pre w Hm.
  - destruct w; cbn. rewrite app_nil_r. reflexivity.
  - cbn [List.length for_loop]. unfold bind at 1. unfold body at 1.
    assert (Hn : nth (Z.to_nat (Z.of_nat (List.length pre))) msg 0 = b).
    { rewrite Nat2Z.id, Hm. apply nth_middle. }
    assert (Hl : (Z.of_nat (List.length pre) <? size - 1)
                 = match suf with [] => false | _ :: _ => true end).
    { rewrite Hs, Hm, length_app. cbn [List.length].
      destruct suf; [apply Z.ltb_ge | apply Z.ltb_lt]; cbn [List.length]; lia. }
    rewrite Hn, Hl.
    replace (Z.of_nat (List.length pre) + 1)
      with (Z.of_nat (List.length (pre ++ [b])))
      by (rewrite length_app; cbn [List.length]; lia).
    assert (Hm' : msg = (pre ++ [b]) ++ suf)
      by (rewrite <- app_assoc; exact Hm).
    specialize (IH (pre ++ [b])).
    destruct w as [r p c q s t].
    destruct (b <? 16) eqn:Hb; destruct suf as [|b' suf'];
      cbv beta iota zeta delta
        [bind Serial_print emit ret log regs pins totalPacketCount isPaused
         serialIn trace];
      rewrite (IH _ Hm');
      cbn [regs pins totalPacketCount isPaused serialIn trace bytes_display];
      unfold byte_display; rewrite ?Hb; rewrite <- ?app_assoc;
      cbn [app]; rewrite ?app_nil_r; reflexivity.
Qed.

Lemma hex_printed_bytes_display (msg : list Z) :
  hex_printed (bytes_display msg) = msg.
Proof.
  induction msg as [|b rest IH]; [reflexivity|].
  cbn [bytes_display]. unfold hex_printed in *. rewrite flat_map_app, IH.
  unfold byte_display. destruct (b <? 16); destruct rest; reflexivity.
Qed.

Lemma printed_app (text : string) (l k : list Event) :
  printed text (l ++ k) = (printed text l + printed text k)%nat.
Proof.
  unfold printed. rewrite filter_app, length_app. reflexivity.
Qed.

Lemma printed_bytes_display (msg : list Z) :
  printed "0x" (bytes_display msg) = List.length msg /\
  printed ", " (bytes_display msg) = Nat.pred (List.length msg) /\
  printed "0" (bytes_display msg)
  = List.length (filter (fun b => b <? 0x10) msg) /\
  forallb is_serial_out (bytes_display msg) = true.
Proof.
  induction msg as [|b rest (I1 & I2 & I3 & I4)]; [repeat split|].
  cbn [bytes_display]. rewrite !printed_app, forallb_app, I1, I2, I3, I4.
  cbn [filter List.length]. unfold byte_display.
  destruct (b <? 16); destruct rest; repeat split.
Qed.

(** X15.  [displayMessage], called with the length of the message, shows
    every byte once and in order: the bytes handed to the hexadecimal print
    are the message itself, each after one "0x", with a padding "0" exactly
    for the bytes below 0x10 and a ", " between neighbours but not after the
    last byte.  It prints and does nothing else; for the empty message it
    prints the heading and the line end only. *)
Theorem displayMessage_shows_every_byte (msg : list Z) (w : World) :
  exists w',
    displayMessage msg (Z.of_nat (List.length msg)) w = Returns tt w' /\
    same_device w w' /\
    serialIn w' = serialIn w /\
    since w w' =
      SerialPrint (PStr "Message to send: ") :: bytes_display msg ++
      [SerialPrintln (PStr "")] /\
    hex_printed (since w w') = msg /\
    printed "0x" (since w w') = List.length msg /\
    printed ", " (since w w') = Nat.pred (List.length msg) /\
    printed "0" (since w w') = List.length (filter (fun b => b <? 0x10) msg) /\
    forallb is_serial_out (since w w') = true.
Proof.
  unfold displayMessage. rewrite Nat2Z.id.
  unfold bind at 1. unfold Serial_print at 1. unfold emit at 1.
  unfold bind at 1.
  pose proof (@displayMessage_loop msg [] msg (Z.of_nat (List.length msg))
                (log (SerialPrint (PStr "Message to send: ")) w)
                eq_refl eq_refl) as L.
  change (Z.of_nat (List.length (@nil Z))) with 0 in L. rewrite L. clear L.
  unfold Serial_println, emit.
  eexists. split; [reflexivity|].
  split; [repeat split|]. split; [reflexivity|].
  rewrite (trace_of_since w _
             (SerialPrint (PStr "Message to send: ") :: bytes_display msg ++
              [SerialPrintln (PStr "")]))
    by (cbn [log trace]; rewrite <- !app_assoc; reflexivity).
  destruct (printed_bytes_display msg) as (P1 & P2 & P3 & P4).
  change (SerialPrint (PStr "Message to send: ") :: bytes_display msg ++
          [SerialPrintln (PStr "")])
    with ([SerialPrint (PStr "Message to send: ")] ++ bytes_display msg ++
          [SerialPrintln (PStr "")]).
  split; [reflexivity|].
  unfold hex_printed. rewrite !flat_map_app. fold (hex_printed (bytes_display msg)).
  rewrite hex_printed_bytes_display.
  rewrite !printed_app, !forallb_app, P1, P2, P3, P4.
  cbn. rewrite app_nil_r, !Nat.add_0_r. repeat split.
Qed.

(** ** Commands, line by line *)

Lemma checkForStopOrGo_on_line (line rest : string) (w : World) :
  contains_char newline line = false ->
  serialIn w = (line ++ String newline rest)%string ->
  checkForStopOrGo w =
  Returns tt
    (if equalsIgnoreCase (trim line) "STOP" then
       log (SerialPrintln (PStr "Process paused. Enter 'GO' to resume."))
         (set_isPaused true (set_serialIn rest w))
     else if equalsIgnoreCase (trim line) "GO" then
       log (SerialPrintln (PStr "Process resumed."))
         (set_isPaused false (set_serialIn rest w))
     else set_serialIn rest w).
Proof.
  intros Hl Hs.
  unfold checkForStopOrGo, Serial_available, Serial_readStringUntil, bind, gets.
  cbv beta. rewrite Hs.
  replace (String.eqb (line ++ String newline rest) EmptyString) with false
    by (destruct line; reflexivity).
  cbv beta iota delta [negb]. rewrite Hs, (split_until_line newline line rest Hl).
  rewrite contains_char_app. cbn [contains_char].
  rewrite Ascii.eqb_refl, orb_true_r.
  destruct (equalsIgnoreCase (trim line) "STOP");
    [|destruct (equalsIgnoreCase (trim line) "GO")]; reflexivity.
Qed.

(** X16.  STOP takes effect in the pass that reads it, and other lines are
    dropped without a word.  When the next line in the buffer is STOP (in
    any case, with any white space before and after it), the pass of [loop]
    that reads it prints "Process paused. Enter 'GO' to resume." and ends
    there with the flag set: no send, registers, pins and counter untouched,
    even if the sketch was running.  When the line holds no NUL byte and is
    neither STOP nor GO, the command check prints nothing and changes
    nothing but the buffer. *)
Theorem stop_takes_effect_at_once eff (ok : bool) (line rest : string)
  (w : World) :
  contains_char newline line = false ->
  serialIn w = (line ++ String newline rest)%string ->
  (is_command "stop" line ->
   loop eff ok w =
   Returns tt
     (mkWorld (regs w) (pins w) (totalPacketCount w) true rest
        (trace w ++
         [SerialPrintln (PStr "Process paused. Enter 'GO' to resume.")]))) /\
  (contains_char NUL line = false ->
   ~ is_command "stop" line -> ~ is_command "go" line ->
   checkForStopOrGo w =
   Returns tt
     (mkWorld (regs w) (pins w) (totalPacketCount w) (isPaused w) rest
        (trace w))).
Proof.
  intros Hl Hs.
  pose proof (checkForStopOrGo_on_line line rest w Hl Hs) as R.
  split.
  - intros C. rewrite (is_command_stop C) in R.
    apply (loop_when_paused eff ok w R). reflexivity.
  - intros N Hstop Hgo.
    destruct (not_a_command N Hstop Hgo) as [E1 E2].
    rewrite E1, E2 in R. exact R.
Qed.

Lemma stop_takes_effect_at_once_witness :
  isPaused (final (loop no_effect true running_with_padded_stop)) = true /\
  send_attempts (trace (final (loop no_effect true running_with_padded_stop)))
  = 0%nat /\
  trace (final (checkForStopOrGo paused_with_inner_space))
  = trace paused_with_inner_space.
Proof.
  destruct (@stop_takes_effect_at_once no_effect true "  sToP "
              EmptyString running_with_padded_stop)
    as (S & _); [reflexivity | reflexivity |].
  destruct (@stop_takes_effect_at_once no_effect true " ST OP "
              EmptyString paused_with_inner_space)
    as (_ & K); [reflexivity | reflexivity |].
  destruct inner_space_is_no_command as (N & Hstop & Hgo).
  rewrite S, (K N Hstop Hgo); [repeat split|].
  exists "  "%string, "sToP"%string, " "%string. repeat split.
Defined.

(** ** The prompts choose the arguments, nothing more *)

Lemma setBandwidth_device (c : Z) (w : World) :
  0 <= c <= 9 ->
  exists w1,
    setBandwidth c w = Returns tt w1 /\
    regs w1 =
      upd (regs w) RegModemConfig1
        (to_u8 (Z.lor (to_u8 (Z.land (to_u8 (regs w RegModemConfig1)) 0x0F))
                      (Z.shiftl c 4))) /\
    pins w1 = pins w /\
    totalPacketCount w1 = totalPacketCount w /\
    isPaused w1 = isPaused w /\
    serialIn w1 = serialIn w.
Proof.
  intros Hc. eexists. split; [apply (setBandwidth_runs w Hc)|].
  repeat split.
Qed.

Lemma setSpreadingFactor_device (sf : Z) (w : World) :
  6 <= sf <= 12 ->
  exists w1,
    setSpreadingFactor sf w = Returns tt w1 /\
    regs w1 =
      upd (regs w) RegModemConfig2
        (to_u8 (Z.lor (to_u8 (Z.land (to_u8 (regs w RegModemConfig2)) 0x0F))
                      (Z.shiftl sf 4))) /\
    pins w1 = pins w /\
    totalPacketCount w1 = totalPacketCount w /\
    isPaused w1 = isPaused w /\
    serialIn w1 = serialIn w.
Proof.
  intros Hs. eexists. split; [apply (setSpreadingFactor_runs w Hs)|].
  repeat split.
Qed.

Lemma setup_unfold eff (initOk : bool) (bwCode sf : Z) (w : World) :
  setup eff initOk bwCode sf w =
  match initializeSystem eff initOk (log (SerialBegin 9600) w) with
  | Returns _ w1 => configureParameters bwCode sf w1
  | Hangs w1 => Hangs w1
  end.
Proof.
  reflexivity.
Qed.

Lemma setup_prompted_unfold eff (initOk : bool) (w : World) :
  setup_prompted eff initOk w =
  match initializeSystem eff initOk (log (SerialBegin 9600) w) with
  | Returns _ w1 => configureParameters_prompted w1
  | Hangs w1 => Hangs w1
  end.
Proof.
  reflexivity.
Qed.

Lemma configureParameters_prompted_unfold (w : World) :
  configureParameters_prompted w =
  match getUserBandwidthInput w with
  | Returns bwCode wa =>
      match setBandwidth bwCode wa with
      | Returns _ wb =>
          match getUserSpreadingFactorInput wb with
          | Returns sf wc => setSpreadingFactor sf wc
          | Hangs wc => Hangs wc
          end
      | Hangs wb => Hangs wb
      end
  | Hangs wa => Hangs wa
  end.
Proof.
  reflexivity.
Qed.

(** X17.  Whenever [setup] with the two prompts comes back, it has done to
    the device what [setup] does when it is handed some bandwidth code in
    0..9 and some spreading factor in 6..12 directly: registers, pins,
    counter and pause flag end up the same.  The prompts only pick the two
    numbers and use up console input. *)
Theorem setup_prompted_agrees_with_setup eff (initOk : bool) (w w' : World) :
  setup_prompted eff initOk w = Returns tt w' ->
  exists bwCode sf ws,
    0 <= bwCode <= 9 /\ 6 <= sf <= 12 /\
    setup eff initOk bwCode sf w = Returns tt ws /\
    regs w' = regs ws /\
    pins w' = pins ws /\
    totalPacketCount w' = totalPacketCount ws /\
    isPaused w' = isPaused ws.
Proof.
  rewrite setup_prompted_unfold.
  destruct initOk.
  2:{ destruct (initializeSystem_init_failed eff (log (SerialBegin 9600) w))
        as (wh & R).
      rewrite R. discriminate. }
  destruct (initializeSystem_init_ok eff (log (SerialBegin 9600) w))
    as (w1 & l & R & _).
  rewrite R, configureParameters_prompted_unfold.
  destruct (getUserBandwidthInput w1) as [bw wa|wa] eqn:Ra; [|discriminate].
  destruct (prompt_returns_extends _ _ _ _ _ _ Ra)
    as (Hbw & (Rga & Pa & Ca & Ia) & _).
  destruct (setBandwidth_device wa Hbw) as (wA & RA & GA & PA & CA & IA & _).
  rewrite RA.
  destruct (getUserSpreadingFactorInput wA) as [sf wb|wb] eqn:Rb; [|discriminate].
  destruct (prompt_returns_extends _ _ _ _ _ _ Rb)
    as (Hsf & (Rgb & Pb & Cb & Ib) & _).
  destruct (setSpreadingFactor_device wb Hsf) as (wB & RB & GB & PB & CB & IB & _).
  rewrite RB. intros E.
  apply (f_equal (@final unit)) in E. cbn [final] in E. subst w'.
  destruct (setBandwidth_device w1 Hbw) as (w2 & R2 & G2 & P2 & C2 & I2 & _).
  destruct (setSpreadingFactor_device w2 Hsf) as (w3 & R3 & G3 & P3 & C3 & I3 & _).
  exists bw, sf, w3. split; [exact Hbw|]. split; [exact Hsf|].
  split.
  { rewrite setup_unfold, R. unfold configureParameters, bind.
    rewrite R2. exact R3. }
  split; [rewrite GB, Rgb, GA, Rga, G3, G2; reflexivity|].
  split; [rewrite PB, Pb, PA, Pa, P3, P2; reflexivity|].
  split; [rewrite CB, Cb, CA, Ca, C3, C2; reflexivity|].
  rewrite IB, Ib, IA, Ia, I3, I2. reflexivity.
Qed.

Lemma setup_prompted_agrees_with_setup_witness :
  exists bwCode sf,
    0 <= bwCode <= 9 /\ 6 <= sf <= 12 /\
    regs (final (setup_prompted no_effect true typed_5_then_12))
    = regs (final (setup no_effect true bwCode sf typed_5_then_12)).
Proof.
  destruct (@setup_prompted_agrees_with_setup no_effect true typed_5_then_12
              (final (setup_prompted no_effect true typed_5_then_12)))
    as (bw & sf & ws & Hb & Hs & R & E & _); [vm_compute; reflexivity|].
  exists bw, sf. rewrite R. cbn [final].
  split; [exact Hb|]. split; [exact Hs | exact E].
Defined.
